(** * Task-Mini-dApp: the wallet session and task synchronisation handlers

    A shallow embedding of the two React components of the repository:
    - [TaskApp] (the component with network check, input validation and
      receipt checks), and
    - [App] (src/App.jsx, the plain component).

    A handler of a React component is a closure over the values of the
    render in which it was created; it reads those values, calls the wallet
    and the contract, and queues state updates.  A handler is therefore
    modelled as a function of the render snapshot that yields the ordered
    trace of its effects (state setters, toasts, console output, calls to
    the wallet or the contract); [run] applies the setters of a trace to
    the component state. *)

From Stdlib Require Import ZArith NArith List String Ascii Bool Lia.
From Stdlib Require Import Permutation Sorted.
Import ListNotations.

Local Open Scope Z_scope.

(** ** The JavaScript values the handlers compute with *)
Module JS.

(** A JavaScript string is a sequence of UTF-16 code units; [length] of the
    list is the string's [.length]. *)
Definition jsstring := list N.

(** An ASCII literal of the source. *)
Definition lit (s : string) : jsstring :=
  map N_of_ascii (list_ascii_of_string s).

Fixpoint eqb (s t : jsstring) : bool :=
  match s, t with
  | [], [] => true
  | a :: s', b :: t' => N.eqb a b && eqb s' t'
  | _, _ => false
  end.

(** WhiteSpace and LineTerminator code points, the ones [trim] strips. *)
Definition isWhiteSpace (c : N) : bool :=
  ((9 <=? c) && (c <=? 13) || (c =? 32) || (c =? 160) || (c =? 5760)
   || (8192 <=? c) && (c <=? 8202) || (c =? 8232) || (c =? 8233)
   || (c =? 8239) || (c =? 8287) || (c =? 12288) || (c =? 65279))%N.

Fixpoint trimStart (s : jsstring) : jsstring :=
  match s with
  | [] => []
  | c :: s' => if isWhiteSpace c then trimStart s' else s
  end.

Definition trimEnd (s : jsstring) : jsstring := rev (trimStart (rev s)).

(** [String.prototype.trim] *)
Definition trim (s : jsstring) : jsstring := trimEnd (trimStart s).

Fixpoint startsWith (s p : jsstring) {struct p} : bool :=
  match p, s with
  | [], _ => true
  | _ :: _, [] => false
  | a :: p', b :: s' => N.eqb a b && startsWith s' p'
  end.

(** [String.prototype.includes] *)
Fixpoint includes (s p : jsstring) : bool :=
  startsWith s p ||
  match s with
  | [] => false
  | _ :: s' => includes s' p
  end.

(** A string is truthy when it is not empty. *)
Definition nonEmpty (s : jsstring) : bool :=
  match s with [] => false | _ :: _ => true end.

(** A string-valued property that may be [undefined] ([None]). *)
Definition truthy (v : option jsstring) : bool :=
  match v with
  | Some s => nonEmpty s
  | None => false
  end.

(** [v || d] for a possibly undefined string [v] and a string [d]. *)
Definition orElse (v : option jsstring) (d : jsstring) : jsstring :=
  if truthy v then match v with Some s => s | None => d end else d.

(** [Array.prototype.sort] with a comparator.  The language fixes the
    result for a consistent comparator: the stable arrangement in which
    [cmp a b > 0] never holds for [a] before [b].  Insertion from the right
    computes it: [x] goes in front of the first element it does not have
    to follow. *)
Section Sort.
Context {A : Type} (cmp : A -> A -> Z).

Fixpoint insert (x : A) (l : list A) : list A :=
  match l with
  | [] => [x]
  | y :: l' => if 0 <? cmp x y then y :: insert x l' else x :: l
  end.

Fixpoint sort (l : list A) : list A :=
  match l with
  | [] => []
  | x :: l' => insert x (sort l')
  end.

(** The order the comparator asks for: [a] may stand before [b]. *)
Definition inOrder (a b : A) : Prop := cmp a b <= 0.
End Sort.

(** [Array.prototype.find] *)
Definition find {A : Type} (p : A -> bool) (l : list A) : option A :=
  List.find p l.

(** The number an integer becomes: the nearest double, ties to the even
    significand.  Integers of magnitude up to 2^53 are kept; beyond, the
    53 leading bits are kept and the rest is rounded.  (No overflow is
    modelled: the integers met here are below 2^256.) *)
Definition toNumber (z : Z) : Z :=
  let m := Z.abs z in
  if m <? 2 ^ 53 then z
  else
    let e := Z.log2 m - 52 in
    let q := m / 2 ^ e in
    let r := m mod 2 ^ e in
    let half := 2 ^ (e - 1) in
    let q' := if r <? half then q
              else if half <? r then q + 1
              else if Z.even q then q else q + 1 in
    Z.sgn z * (q' * 2 ^ e).

(** [s.slice(0, n)] for a count [n]: the first [n] code units. *)
Definition sliceTo (n : nat) (s : jsstring) : jsstring := firstn n s.

(** [s.slice(-n)] for a count [n]: the last [n] code units, the whole
    string when it has fewer. *)
Definition sliceLast (n : nat) (s : jsstring) : jsstring :=
  skipn (List.length s - n) s.

End JS.

Import JS.

(** ** Effects of an async handler

    [M Act A] is the run of an async function: the trace of effects it
    performed and either its value or the error it threw. *)
Module Eff.

Record JsError := mkError {
  message : jsstring;
  reason : option jsstring   (* set by the ethers library, absent on [new Error] *)
}.

Definition newError (msg : string) : JsError := mkError (lit msg) None.

Inductive Res (A : Type) : Type :=
| Ok (a : A)
| Throw (e : JsError).
Arguments Ok {A} a.
Arguments Throw {A} e.

Section Monad.
Context {Act : Type}.

Definition M (A : Type) : Type := (list Act * Res A)%type.

Definition ret {A} (a : A) : M A := ([], Ok a).

Definition bind {A B} (m : M A) (f : A -> M B) : M B :=
  match m with
  | (t, Ok a) => let (t', r) := f a in (t ++ t', r)
  | (t, Throw e) => (t, Throw e)
  end.

Definition emit (a : Act) : M unit := ([a], Ok tt).

Definition throw {A} (e : JsError) : M A := ([], Throw e).

(** [try { m } catch (error) { h error }] *)
Definition try_catch {A} (m : M A) (h : JsError -> M A) : M A :=
  match m with
  | (t, Ok a) => (t, Ok a)
  | (t, Throw e) => let (t', r) := h e in (t ++ t', r)
  end.

(** [try { m } finally { f }] *)
Definition finally {A} (m : M A) (f : M unit) : M A :=
  match m, f with
  | (t, r), (t', Ok _) => (t ++ t', r)
  | (t, _), (t', Throw e) => (t ++ t', Throw e)
  end.

Definition trace {A} (m : M A) : list Act := fst m.
Definition result {A} (m : M A) : Res A := snd m.
End Monad.

Arguments M : clear implicits.

Declare Scope eff_scope.
Delimit Scope eff_scope with eff.
Notation "x <- m ;; k" := (bind m (fun x => k))
  (at level 61, m at next level, right associativity) : eff_scope.
Notation "m ;; k" := (bind m (fun _ => k))
  (at level 61, right associativity) : eff_scope.

End Eff.

Import Eff.

(** ** The collaborators: the task contract and the injected wallet

    The handlers see them as objects with async methods.  A handle is
    modelled by what each method answers when awaited: a value or a
    rejection.  Every method is awaited at most once in a handler run. *)
Module Ledger.

Record Task := mkTask {
  id : Z;            (* uint256 of the contract *)
  taskTitle : jsstring;
  taskText : jsstring;
  isDeleted : bool
}.

(** An entry of [receipt.events]; [event] is the decoded name, undefined
    for a log the ABI does not know. *)
Record Event := mkEvent { event : option jsstring }.

(** [events] is optional on a receipt (the source reads it with [?.]). *)
Record Receipt := mkReceipt { events : option (list Event) }.

Record Tx := mkTx { wait : Res Receipt }.

Record Contract := mkContract {
  getMyTask : Res (list Task);
  addTask : jsstring -> jsstring -> bool -> option Z -> Res Tx;
      (* text, title, isDeleted, gasLimit override *)
  deleteTask : Z -> option Z -> Res Tx
      (* id, gasLimit override *)
}.

Record Network := mkNetwork { chainId : Z }.

(** [window.ethereum] together with the ethers provider wrapped around it. *)
Record Ethereum := mkEthereum {
  requestAccounts : Res (list jsstring);   (* eth_requestAccounts *)
  getNetwork : Res Network;
  getCode : jsstring -> Res jsstring;
  newContract : jsstring -> Contract
      (* new ethers.Contract(address, abi, signer) *)
}.

(** A call that leaves the page: to the wallet, the node or the contract. *)
Inductive NetCall :=
| CallGetNetwork
| CallRequestAccounts
| CallGetCode (address : jsstring)
| CallGetMyTask
| CallAddTask (text title : jsstring) (isDel : bool) (gasLimit : option Z)
| CallDeleteTask (taskId : Z) (gasLimit : option Z)
| CallWait.

End Ledger.

Import Ledger.

Definition contractAddress : jsstring :=
  lit "0x17282d6Ad90e84E24ee68fe68fD01014D9B8d7B3".

(** [accounts[0]]: undefined on an empty array. *)
Definition first (accounts : list jsstring) : option jsstring :=
  match accounts with
  | [] => None
  | a :: _ => Some a
  end.

(** [(task) => !task.isDeleted] *)
Definition notDeleted (task : Task) : bool := negb (isDeleted task).

(** [(a, b) => b.id - a.id].  The ids are big-number objects; the minus
    turns each into a number and subtracts the numbers, so both the
    operands and the difference are rounded to doubles. *)
Definition byIdDesc (a b : Task) : Z :=
  toNumber (toNumber (id b) - toNumber (id a)).

(** [(e) => e.event === name] *)
Definition eventNamed (name : string) (e : Event) : bool :=
  match event e with
  | Some n => JS.eqb n (lit name)
  | None => false
  end.

(** [receipt.events?.find(p)] *)
Definition findEvent (p : Event -> bool) (receipt : Receipt) : option Event :=
  match events receipt with
  | Some evs => JS.find p evs
  | None => None
  end.

Inductive ToastKind := Error | Info | Success.
Inductive ConsoleKind := CError | CWarn | CLog.

(** ** The component with validation and receipt checks (TaskApp) *)
Module TaskApp.

Record Draft := mkDraft { title : jsstring; text : jsstring }.

Record State := mkState {
  account : option jsstring;      (* useState("") *)
  contract : option Contract;     (* useState(null) *)
  tasks : list Task;              (* useState([]) *)
  newTask : Draft;                (* useState({ title: "", text: "" }) *)
  loading : bool;                 (* useState(false) *)
  isInitialized : bool            (* useState(false) *)
}.

Definition initial : State :=
  mkState (Some []) None [] (mkDraft [] []) false false.

Inductive Action :=
| SetAccount (a : option jsstring)
| SetContract (c : option Contract)
| SetTasks (l : list Task)
| SetNewTask (d : Draft)
| SetLoading (b : bool)
| SetIsInitialized (b : bool)
| Toast (k : ToastKind) (msg : jsstring)
| Console (k : ConsoleKind) (msg : jsstring)
| PreventDefault
| Call (c : NetCall).

Definition apply (s : State) (a : Action) : State :=
  match a with
  | SetAccount v =>
      mkState v (contract s) (tasks s) (newTask s) (loading s) (isInitialized s)
  | SetContract c =>
      mkState (account s) c (tasks s) (newTask s) (loading s) (isInitialized s)
  | SetTasks l =>
      mkState (account s) (contract s) l (newTask s) (loading s) (isInitialized s)
  | SetNewTask d =>
      mkState (account s) (contract s) (tasks s) d (loading s) (isInitialized s)
  | SetLoading b =>
      mkState (account s) (contract s) (tasks s) (newTask s) b (isInitialized s)
  | SetIsInitialized b =>
      mkState (account s) (contract s) (tasks s) (newTask s) (loading s) b
  | Toast _ _ | Console _ _ | PreventDefault | Call _ => s
  end.

(** The state after the setters of a trace took effect, in order. *)
Definition run (s : State) (t : list Action) : State := fold_left apply t s.

(** Awaiting a method of a collaborator: the call is recorded and the
    answer is the method's. *)
Definition await {A} (c : NetCall) (answer : Res A) : M Action A :=
  ([Call c], answer).

Definition toast (k : ToastKind) (msg : jsstring) : M Action unit :=
  emit (Toast k msg).

Definition console (k : ConsoleKind) (msg : string) : M Action unit :=
  emit (Console k (lit msg)).

Local Open Scope eff_scope.

Definition expectedNetwork : Z := 1.

Definition checkNetwork (provider : Ethereum) : M Action bool :=
  try_catch
    (network <- await CallGetNetwork (getNetwork provider) ;;
     if negb (chainId network =? expectedNetwork) then
       toast Error (lit "Please connect to the correct network!") ;;
       ret false
     else ret true)
    (fun error =>
       console CError "Network check failed:" ;;
       ret false).

Definition loadTasks (snap : State) (taskContract : option Contract)
  : M Action unit :=
  match truthy (account snap), taskContract with
  | true, Some c =>
      finally
        (try_catch
           (emit (SetLoading true) ;;
            allTasks <- await CallGetMyTask (getMyTask c) ;;
            let activeTasks := JS.sort byIdDesc (filter notDeleted allTasks) in
            emit (SetTasks activeTasks))
           (fun error =>
              console CError "Failed to load tasks:" ;;
              toast Error (lit "Error loading tasks: "
                           ++ orElse (reason error) (message error))))
        (emit (SetLoading false))
  | _, _ =>
      console CWarn "Cannot load tasks: wallet not connected"
  end.

Definition handleAccountChange (snap : State) (accounts : list jsstring)
  : M Action unit :=
  if (List.length accounts =? 0)%nat then
    emit (SetAccount (Some [])) ;;
    emit (SetTasks []) ;;
    toast Info (lit "Wallet disconnected")
  else
    emit (SetAccount (first accounts)) ;;
    match contract snap with
    | Some c => loadTasks snap (Some c)
    | None => ret tt
    end.

Definition connectWallet (snap : State) (ethereum : option Ethereum)
  : M Action unit :=
  finally
    (try_catch
       match ethereum with
       | None => throw (newError "MetaMask is not installed")
       | Some provider =>
           emit (SetLoading true) ;;
           isCorrectNetwork <- checkNetwork provider ;;
           if negb isCorrectNetwork then ret tt
           else
             accounts <- await CallRequestAccounts (requestAccounts provider) ;;
             let taskContract := newContract provider contractAddress in
             code <- await (CallGetCode contractAddress)
                           (getCode provider contractAddress) ;;
             (if JS.eqb code (lit "0x")
              then throw (newError "Contract not deployed at specified address")
              else ret tt) ;;
             emit (SetAccount (first accounts)) ;;
             emit (SetContract (Some taskContract)) ;;
             loadTasks snap (Some taskContract) ;;
             toast Success (lit "Wallet connected successfully!")
       end
       (fun error =>
          console CError "Wallet connection failed:" ;;
          toast Error (orElse (Some (message error))
                              (lit "Failed to connect wallet"))))
    (emit (SetLoading false)).

(** Reading a property of [null]: the TypeError of the engine. *)
Definition nullDeref (prop : string) : JsError :=
  newError ("Cannot read properties of null (reading '" ++ prop ++ "')").

Definition validateTaskInput (snap : State) : M Action bool :=
  if negb (nonEmpty (trim (title (newTask snap)))) then
    toast Error (lit "Task title cannot be empty") ;;
    ret false
  else if negb (nonEmpty (trim (text (newTask snap)))) then
    toast Error (lit "Task description cannot be empty") ;;
    ret false
  else if (100 <? List.length (title (newTask snap)))%nat then
    toast Error (lit "Task title too long (max 100 characters)") ;;
    ret false
  else if (500 <? List.length (text (newTask snap)))%nat then
    toast Error (lit "Task description too long (max 500 characters)") ;;
    ret false
  else ret true.

Definition addTask (snap : State) : M Action unit :=
  emit PreventDefault ;;
  if negb (truthy (account snap)) then
    toast Error (lit "Please connect your wallet first")
  else
    valid <- validateTaskInput snap ;;
    if negb valid then ret tt
    else
      finally
        (try_catch
           (emit (SetLoading true) ;;
            tx <- match contract snap with
                  | None => throw (nullDeref "addTask")
                  | Some c =>
                      let text' := trim (text (newTask snap)) in
                      let title' := trim (title (newTask snap)) in
                      await (CallAddTask text' title' false (Some 200000))
                            (Ledger.addTask c text' title' false (Some 200000))
                  end ;;
            toast Info (lit "Adding task... Please wait for confirmation") ;;
            receipt <- await CallWait (wait tx) ;;
            match findEvent (eventNamed "AddTask") receipt with
            | None => throw (newError "Add task event not found in transaction")
            | Some _ => ret tt
            end ;;
            toast Success (lit "Task added successfully!") ;;
            emit (SetNewTask (mkDraft [] [])) ;;
            loadTasks snap (contract snap))
           (fun error =>
              console CError "Failed to add task:" ;;
              toast Error (orElse (reason error) (message error))))
        (emit (SetLoading false)).

Definition deleteTask (snap : State) (taskId : Z) : M Action unit :=
  if negb (truthy (account snap)) then
    toast Error (lit "Please connect your wallet first")
  else
    finally
      (try_catch
         (emit (SetLoading true) ;;
          tx <- match contract snap with
                | None => throw (nullDeref "deleteTask")
                | Some c =>
                    await (CallDeleteTask taskId (Some 100000))
                          (Ledger.deleteTask c taskId (Some 100000))
                end ;;
          toast Info (lit "Deleting task... Please wait for confirmation") ;;
          receipt <- await CallWait (wait tx) ;;
          match findEvent (eventNamed "DeleteTask") receipt with
          | None => throw (newError "Delete task event not found in transaction")
          | Some _ => ret tt
          end ;;
          toast Success (lit "Task deleted successfully!") ;;
          loadTasks snap (contract snap))
         (fun error =>
            console CError "Failed to delete task:" ;;
            if includes (message error) (lit "owner") then
              toast Error (lit "You are not the owner of this task")
            else
              toast Error (orElse (reason error) (message error))))
      (emit (SetLoading false)).

(** *** What a render shows of the mutation controls *)

(** The Add Task form: present only under [account &&]; its two inputs and
    its submit button carry [disabled={loading}]. *)
Record FormView := mkFormView {
  titleDisabled : bool;
  textDisabled : bool;
  submitDisabled : bool
}.

Definition formView (s : State) : option FormView :=
  if truthy (account s)
  then Some (mkFormView (loading s) (loading s) (loading s))
  else None.

(** The task area: a prompt, a loading line, an empty line, or one card per
    task whose Delete button calls [deleteTask] with the task's id and
    carries [disabled={loading}]. *)
Inductive ListView :=
| ConnectPrompt
| LoadingLine
| NoTasksLine
| Cards (cards : list (Z * bool)).   (* id passed to deleteTask, disabled *)

Definition listView (s : State) : ListView :=
  if negb (truthy (account s)) then ConnectPrompt
  else if loading s then LoadingLine
  else if (List.length (tasks s) =? 0)%nat then NoTasksLine
  else Cards (map (fun task => (id task, loading s)) (tasks s)).

(** [init] of the mount effect: it runs while [isInitialized] is false. *)
Definition init (snap : State) (ethereum : option Ethereum)
  : M Action unit :=
  try_catch
    match ethereum with
    | None => toast Error (lit "Please install MetaMask!")
    | Some _ =>
        connectWallet snap ethereum ;;
        emit (SetIsInitialized true)
    end
    (fun error =>
       console CError "Initialization failed:" ;;
       toast Error (lit "Failed to initialize the application")).

(** The account as the header shows it: the first six and the last four
    code units around three dots. *)
Definition shortAccount (a : jsstring) : jsstring :=
  sliceTo 6 a ++ lit "..." ++ sliceLast 4 a.

(** The header: the short account beside Disconnect, or the Connect
    button with its [disabled={loading}]. *)
Inductive HeaderView :=
| AccountBadge (shown : jsstring)
| ConnectButton (disabled : bool).

Definition headerView (s : State) : HeaderView :=
  match account s with
  | Some a => if nonEmpty a then AccountBadge (shortAccount a)
              else ConnectButton (loading s)
  | None => ConnectButton (loading s)
  end.

End TaskApp.

(** ** The plain component (src/App.jsx) *)
Module App.

Record Draft := mkDraft { title : jsstring; text : jsstring }.

Record State := mkState {
  contract : option Contract;     (* useState(null) *)
  account : option jsstring;      (* useState("") *)
  tasks : list Task;              (* useState([]) *)
  loading : bool;                 (* useState(false) *)
  error : jsstring;               (* useState("") *)
  newTask : Draft
}.

Inductive Action :=
| SetContract (c : option Contract)
| SetAccount (a : option jsstring)
| SetTasks (l : list Task)
| SetLoading (b : bool)
| SetError (msg : jsstring)
| SetNewTask (d : Draft)
| ConsoleLog
| Call (c : NetCall).

Definition apply (s : State) (a : Action) : State :=
  match a with
  | SetContract c =>
      mkState c (account s) (tasks s) (loading s) (error s) (newTask s)
  | SetAccount v =>
      mkState (contract s) v (tasks s) (loading s) (error s) (newTask s)
  | SetTasks l =>
      mkState (contract s) (account s) l (loading s) (error s) (newTask s)
  | SetLoading b =>
      mkState (contract s) (account s) (tasks s) b (error s) (newTask s)
  | SetError m =>
      mkState (contract s) (account s) (tasks s) (loading s) m (newTask s)
  | SetNewTask d =>
      mkState (contract s) (account s) (tasks s) (loading s) (error s) d
  | ConsoleLog | Call _ => s
  end.

Definition run (s : State) (t : list Action) : State := fold_left apply t s.

Definition await {A} (c : NetCall) (answer : Res A) : M Action A :=
  ([Call c], answer).

Local Open Scope eff_scope.

Definition fetchTasks (snap : State) : M Action unit :=
  match contract snap with
  | None => ret tt
  | Some c =>
      finally
        (try_catch
           (emit (SetLoading true) ;;
            taskList <- await CallGetMyTask (getMyTask c) ;;
            emit ConsoleLog ;;
            emit (SetTasks (filter notDeleted taskList)))
           (fun err =>
              emit (SetError (lit "Failed to fetch tasks: " ++ message err))))
        (emit (SetLoading false))
  end.

(** The [accountsChanged] listener registered by [initializeWeb3]. *)
Definition onAccountsChanged (accounts : list jsstring) : M Action unit :=
  emit (SetAccount (first accounts)).

Definition handleDeleteTask (snap : State) (taskId : Z) : M Action unit :=
  match contract snap with
  | None => ret tt
  | Some c =>
      finally
        (try_catch
           (emit (SetLoading true) ;;
            tx <- await (CallDeleteTask taskId None)
                        (Ledger.deleteTask c taskId None) ;;
            await CallWait (wait tx) ;;
            fetchTasks snap)
           (fun err =>
              emit (SetError (lit "Failed to delete task: " ++ message err))))
        (emit (SetLoading false))
  end.

(** The effects of the handlers that also touch the page or the wallet
    object: a state or network effect as above, the default of the submit
    event prevented, the signer asked of the provider, the listener for
    account changes registered. *)
Inductive Effect :=
| Do (a : Action)
| PreventDefault
| CallGetSigner
| ListenAccountsChanged.

Definition lift {A} (m : M Action A) : M Effect A :=
  (map Do (fst m), snd m).

Definition applyEffect (s : State) (e : Effect) : State :=
  match e with
  | Do a => apply s a
  | PreventDefault | CallGetSigner | ListenAccountsChanged => s
  end.

Definition runEffects (s : State) (t : list Effect) : State :=
  fold_left applyEffect t s.

Definition handleAddTask (snap : State) : M Effect unit :=
  emit PreventDefault ;;
  match contract snap with
  | None => ret tt
  | Some c =>
      finally
        (try_catch
           (emit (Do (SetLoading true)) ;;
            tx <- lift (await (CallAddTask (text (newTask snap))
                                           (title (newTask snap)) false None)
                              (Ledger.addTask c (text (newTask snap))
                                              (title (newTask snap))
                                              false None)) ;;
            lift (await CallWait (wait tx)) ;;
            emit (Do (SetNewTask (mkDraft [] []))) ;;
            lift (fetchTasks snap))
           (fun err =>
              emit (Do (SetError (lit "Failed to add task: "
                                  ++ message err)))))
        (emit (Do (SetLoading false)))
  end.

(** [initializeWeb3]; [signer] is what [provider.getSigner()] answers. *)
Definition initializeWeb3 (ethereum : option Ethereum) (signer : Res unit)
  : M Effect unit :=
  try_catch
    match ethereum with
    | None => throw (newError "Please install MetaMask")
    | Some eth =>
        accounts <- lift (await CallRequestAccounts (requestAccounts eth)) ;;
        emit (Do (SetAccount (first accounts))) ;;
        (([CallGetSigner], signer) : M Effect unit) ;;
        emit (Do (SetContract (Some (newContract eth contractAddress)))) ;;
        emit ListenAccountsChanged
    end
    (fun err => emit (Do (SetError (message err)))).

End App.

(** ** How the outcomes of the handlers are observed

    The handlers return nothing; what an operation reports is the error
    toast it raises, and what it asked of the network is the calls of its
    trace. *)
Module Observe.
Import TaskApp.

(** [p] occurs in [s] as a substring. *)
Definition contains (s p : jsstring) : Prop := exists l r, s = l ++ p ++ r.

(** The handler made no call to the wallet, the node or the contract. *)
Definition noNetwork (t : list Action) : Prop := forall c, ~ In (Call c) t.

(** The texts of the error toasts of a trace, in order. *)
Fixpoint errorToasts (t : list Action) : list jsstring :=
  match t with
  | [] => []
  | Toast Error msg :: t' => msg :: errorToasts t'
  | _ :: t' => errorToasts t'
  end.

(** The four complaints of [validateTaskInput]. *)
Definition validationMessages : list jsstring :=
  [lit "Task title cannot be empty";
   lit "Task description cannot be empty";
   lit "Task title too long (max 100 characters)";
   lit "Task description too long (max 500 characters)"].

Definition notConnectedMessage : jsstring :=
  lit "Please connect your wallet first".

Definition wrongNetworkMessage : jsstring :=
  lit "Please connect to the correct network!".

Definition addEventMissingMessage : jsstring :=
  lit "Add task event not found in transaction".

Definition notOwnerMessage : jsstring :=
  lit "You are not the owner of this task".

(** The receipt lists an event of that name. *)
Definition hasEvent (name : string) (receipt : Receipt) : Prop :=
  exists evs e,
    events receipt = Some evs /\ In e evs /\ event e = Some (lit name).

(** The delete call for [taskId] is rejected with [e]: on submission, or
    by the wait for its confirmation. *)
Definition rejectedWith (c : Contract) (taskId : Z) (e : JsError) : Prop :=
  Ledger.deleteTask c taskId (Some 100000) = Throw e \/
  exists tx, Ledger.deleteTask c taskId (Some 100000) = Ok tx /\
             wait tx = Throw e.

(** A draft [validateTaskInput] lets through. *)
Definition validDraft (d : Draft) : Prop :=
  trim (title d) <> [] /\ trim (text d) <> [] /\
  (List.length (title d) <= 100)%nat /\ (List.length (text d) <= 500)%nat.

(** Every network call of the trace happens while the loading flag, which
    starts as [flag], is set. *)
Fixpoint callsUnderLoading (flag : bool) (t : list Action) : bool :=
  match t with
  | [] => true
  | SetLoading b :: t' => callsUnderLoading b t'
  | Call _ :: t' => flag && callsUnderLoading flag t'
  | _ :: t' => callsUnderLoading flag t'
  end.

(** The snapshot with another value of the loading flag. *)
Definition withLoading (b : bool) (s : State) : State :=
  mkState (account s) (contract s) (tasks s) (newTask s) b (isInitialized s).

(** How many times the trace fetches the task list. *)
Fixpoint fetches (t : list Action) : nat :=
  match t with
  | [] => 0
  | Call CallGetMyTask :: t' => S (fetches t')
  | _ :: t' => fetches t'
  end.

(** The texts of the success toasts of a trace, in order. *)
Fixpoint successToasts (t : list Action) : list jsstring :=
  match t with
  | [] => []
  | Toast Success msg :: t' => msg :: successToasts t'
  | _ :: t' => successToasts t'
  end.

(** The wallet lets [connectWallet] through: it is on the expected chain,
    hands out [accounts] and reports code at the contract address. *)
Definition walletReady (provider : Ethereum) (accounts : list jsstring)
  : Prop :=
  (exists network, getNetwork provider = Ok network /\
                   chainId network = expectedNetwork) /\
  requestAccounts provider = Ok accounts /\
  (exists code, getCode provider contractAddress = Ok code /\
                code <> lit "0x").

(** The string has a code unit that is not white space. *)
Definition hasInk (s : jsstring) : Prop :=
  exists c, In c s /\ isWhiteSpace c = false.

(** The ids of the tasks are integers a number holds exactly. *)
Definition safeIds (l : list Task) : Prop :=
  forall t, In t l -> Z.abs (id t) <= 2 ^ 53.

(** [local] is the live part of [allTasks], highest id first: it has the
    tasks of [allTasks] that are not deleted as its members, each as often
    as there, in descending id order, tasks of one id in the order of
    [allTasks]. *)
Definition liveDescending (allTasks local : list Task) : Prop :=
  (forall t, In t local <-> In t allTasks /\ isDeleted t = false) /\
  Permutation local (filter notDeleted allTasks) /\
  StronglySorted (fun a b => id b <= id a) local /\
  (forall k, filter (fun t => id t =? k) local
             = filter (fun t => id t =? k) (filter notDeleted allTasks)).

(** The loading flag after the setters of a trace, from [flag]. *)
Fixpoint finalLoading (flag : bool) (t : list Action) : bool :=
  match t with
  | [] => flag
  | SetLoading b :: t' => finalLoading b t'
  | _ :: t' => finalLoading flag t'
  end.

(** The network calls among the effects of the plain component. *)
Fixpoint effectCalls (t : list App.Effect) : list NetCall :=
  match t with
  | [] => []
  | App.Do (App.Call c) :: t' => c :: effectCalls t'
  | _ :: t' => effectCalls t'
  end.

(** The network calls of a trace of the plain component. *)
Fixpoint appCalls (t : list App.Action) : list NetCall :=
  match t with
  | [] => []
  | App.Call c :: t' => c :: appCalls t'
  | _ :: t' => appCalls t'
  end.

End Observe.

(** ** Sample collaborators and renders *)
Module Sample.
Import TaskApp.

Definition task1 : Task := mkTask 1 (lit "first") (lit "one") false.
Definition task2 : Task := mkTask 2 (lit "second") (lit "two") true.
Definition task3 : Task := mkTask 3 (lit "third") (lit "three") false.

Definition addReceipt : Receipt :=
  mkReceipt (Some [mkEvent None; mkEvent (Some (lit "AddTask"))]).
Definition deleteReceipt : Receipt :=
  mkReceipt (Some [mkEvent (Some (lit "DeleteTask"))]).
Definition silentReceipt : Receipt :=
  mkReceipt (Some [mkEvent (Some (lit "Transfer"))]).

(** A contract that answers every call. *)
Definition ledger : Contract :=
  mkContract (Ok [task1; task2; task3])
             (fun _ _ _ _ => Ok (mkTx (Ok addReceipt)))
             (fun _ _ => Ok (mkTx (Ok deleteReceipt))).

(** One whose add transaction confirms without the AddTask event. *)
Definition silentLedger : Contract :=
  mkContract (Ok [task1; task2; task3])
             (fun _ _ _ _ => Ok (mkTx (Ok silentReceipt)))
             (fun _ _ => Ok (mkTx (Ok deleteReceipt))).

Definition ownerError : JsError :=
  mkError (lit "execution reverted: caller is not the owner")
          (Some (lit "caller is not the owner")).
Definition gasError : JsError :=
  mkError (lit "transaction failed") (Some (lit "out of gas")).

(** One that rejects everything. *)
Definition failingLedger (e : JsError) : Contract :=
  mkContract (Throw e) (fun _ _ _ _ => Throw e) (fun _ _ => Throw e).

Definition goerli : Ethereum :=
  mkEthereum (Ok [lit "0xAAA"]) (Ok (mkNetwork 5))
             (fun _ => Ok (lit "0x6080")) (fun _ => ledger).

Definition connected (c : Contract) (d : Draft) : State :=
  mkState (Some (lit "0xAAA")) (Some c) [task3; task1] d false true.

Definition emptyDraft : Draft := mkDraft [] [].
Definition blankDraft : Draft := mkDraft (lit "   ") (lit "text").
Definition goodDraft : Draft := mkDraft (lit " A ") (lit "B").

Definition emptyRender : State := connected ledger emptyDraft.
Definition blankRender : State := connected ledger blankDraft.
Definition goodRender : State := connected ledger goodDraft.
Definition silentRender : State := connected silentLedger goodDraft.

(** A render while an operation is outstanding. *)
Definition busyRender : State :=
  mkState (Some (lit "0xAAA")) (Some ledger) [task3; task1] goodDraft
          true true.

(** Two tasks whose ids a number cannot tell apart. *)
Definition taskLow : Task := mkTask (2 ^ 53) (lit "low") (lit "l") false.
Definition taskHigh : Task := mkTask (2 ^ 53 + 1) (lit "high") (lit "h") false.


(** An error that names the owner in its reason only. *)
Definition reasonOnlyError : JsError :=
  mkError (lit "transaction failed") (Some (lit "caller is not the owner")).

(** An error without reason. *)
Definition plainError : JsError := mkError (lit "nonce too low") None.

(** A render of the plain component with tasks on the page. *)
Definition appLoaded : App.State :=
  App.mkState (Some ledger) (Some (lit "0xAAA")) [task1; task3] false []
              (App.mkDraft [] []).

(** A wallet on the expected chain. *)
Definition mainnet : Ethereum :=
  mkEthereum (Ok [lit "0xAAA"; lit "0xBBB"]) (Ok (mkNetwork 1))
             (fun _ => Ok (lit "0x6080")) (fun _ => ledger).

(** One on the expected chain where the address holds no code. *)
Definition emptyAddress : Ethereum :=
  mkEthereum (Ok [lit "0xAAA"]) (Ok (mkNetwork 1))
             (fun _ => Ok (lit "0x")) (fun _ => ledger).

(** One whose network cannot be read. *)
Definition offline : Ethereum :=
  mkEthereum (Ok [lit "0xAAA"]) (Throw gasError)
             (fun _ => Ok (lit "0x6080")) (fun _ => ledger).

(** One whose user turns the request down. *)
Definition refusing : Ethereum :=
  mkEthereum (Throw (mkError (lit "User rejected the request.") None))
             (Ok (mkNetwork 1))
             (fun _ => Ok (lit "0x6080")) (fun _ => ledger).

(** A render with an account but no contract handle. *)
Definition orphanRender : State :=
  mkState (Some (lit "0xAAA")) None [] goodDraft false true.

(** A render of the plain component, the contract handle set. *)
Definition appRender : App.State :=
  App.mkState (Some ledger) (Some (lit "0xAAA")) [] false []
              (App.mkDraft [] []).

End Sample.

(** * Properties *)

(** ** Strings *)
Section StringFacts.

Lemma startsWith_app (p r : jsstring) : startsWith (p ++ r) p = true.
Proof.
  induction p as [|a p IH]; simpl; [reflexivity|].
  now rewrite N.eqb_refl, IH.
Qed.

Lemma startsWith_inv (s p : jsstring) :
  startsWith s p = true -> exists r, s = p ++ r.
Proof.
  revert s; induction p as [|a p IH]; intros s H; simpl in *.
  - now exists s.
  - destruct s as [|b s]; [discriminate|].
    apply andb_true_iff in H as [Hab Hs].
    apply N.eqb_eq in Hab; subst b.
    destruct (IH _ Hs) as [r ->]. now exists r.
Qed.

Lemma includes_startsWith (s p : jsstring) :
  startsWith s p = true -> includes s p = true.
Proof. destruct s; simpl; intros ->; reflexivity. Qed.

(** [includes] decides the substring relation. *)
Lemma includes_spec (s p : jsstring) :
  includes s p = true <-> exists l r, s = l ++ p ++ r.
Proof.
  split.
  - induction s as [|c s IH]; simpl; intros H.
    + rewrite orb_false_r in H. destruct (startsWith_inv _ _ H) as [r Hr].
      now exists [], r.
    + apply orb_true_iff in H as [H|H].
      * destruct (startsWith_inv _ _ H) as [r Hr]. now exists [], r.
      * destruct (IH H) as (l & r & ->). now exists (c :: l), r.
  - intros (l & r & ->). induction l as [|c l IH]; simpl.
    + apply includes_startsWith, startsWith_app.
    + rewrite IH. apply orb_true_r.
Qed.

Lemma trimStart_blank (s : jsstring) :
  forallb isWhiteSpace s = true -> trimStart s = [].
Proof.
  induction s as [|c s IH]; simpl; [reflexivity|].
  intros H. apply andb_true_iff in H as [Hc Hs]. now rewrite Hc, IH.
Qed.

(** A string of white space only trims to the empty string. *)
Lemma trim_blank (s : jsstring) :
  forallb isWhiteSpace s = true -> trim s = [].
Proof.
  intros H. unfold trim, trimEnd. now rewrite (trimStart_blank s H).
Qed.

Lemma trimStart_nil_blank (s : jsstring) :
  trimStart s = [] -> forallb isWhiteSpace s = true.
Proof.
  induction s as [|c s IH]; simpl; [reflexivity|].
  destruct (isWhiteSpace c); [exact IH | discriminate].
Qed.

(** Conversely, only such strings do. *)
Lemma trim_nil_blank (s : jsstring) :
  trim s = [] -> forallb isWhiteSpace s = true.
Proof.
  unfold trim, trimEnd. intros H.
  assert (H1 : trimStart (rev (trimStart s)) = []).
  { rewrite <- (rev_involutive (trimStart (rev (trimStart s)))), H.
    reflexivity. }
  apply trimStart_nil_blank in H1.
  rewrite forallb_forall in H1.
  assert (H2 : forallb isWhiteSpace (trimStart s) = true).
  { apply forallb_forall. intros x Hx. apply H1, in_rev.
    now rewrite rev_involutive. }
  clear H H1. induction s as [|c s IH]; simpl in *; [reflexivity|].
  destruct (isWhiteSpace c) eqn:Hc; simpl.
  - auto.
  - simpl in H2. rewrite Hc in H2. discriminate.
Qed.

End StringFacts.

(** ** Sorting with a comparator *)
Section SortFacts.
Context {A : Type} (cmp : A -> A -> Z).

Lemma insert_perm (x : A) (l : list A) :
  Permutation (insert cmp x l) (x :: l).
Proof.
  induction l as [|y l IH]; simpl; [reflexivity|].
  destruct (0 <? cmp x y); [|reflexivity].
  rewrite IH. apply perm_swap.
Qed.

Lemma sort_perm (l : list A) : Permutation (JS.sort cmp l) l.
Proof.
  induction l as [|x l IH]; simpl; [reflexivity|].
  rewrite insert_perm. now constructor.
Qed.

Hypothesis cmp_antisym : forall a b, 0 < cmp a b -> cmp b a <= 0.
Hypothesis cmp_trans :
  forall a b c, cmp a b <= 0 -> cmp b c <= 0 -> cmp a c <= 0.

Lemma insert_sorted (x : A) (l : list A) :
  StronglySorted (inOrder cmp) l -> StronglySorted (inOrder cmp) (insert cmp x l).
Proof.
  induction 1 as [|y l Hl IH Hy]; simpl.
  - repeat constructor.
  - destruct (0 <? cmp x y) eqn:E.
    + constructor; [exact IH|].
      apply Z.ltb_lt, cmp_antisym in E.
      eapply Permutation_Forall; [symmetry; apply insert_perm|].
      constructor; assumption.
    + apply Z.ltb_ge in E.
      constructor; [now constructor|].
      constructor; [exact E|].
      eapply Forall_impl; [|exact Hy].
      intros z Hz. eapply cmp_trans; eassumption.
Qed.

Lemma sort_sorted (l : list A) : StronglySorted (inOrder cmp) (JS.sort cmp l).
Proof.
  induction l as [|x l IH]; simpl; [constructor|].
  now apply insert_sorted.
Qed.

(** A list already in order is left as it is. *)
Lemma sort_fixes_sorted (l : list A) :
  StronglySorted (inOrder cmp) l -> JS.sort cmp l = l.
Proof.
  induction 1 as [|x l Hl IH Hx]; simpl; [reflexivity|].
  rewrite IH. destruct l as [|y l]; simpl; [reflexivity|].
  inversion Hx as [|? ? Hxy _]; subst.
  apply Z.ltb_ge in Hxy. now rewrite Hxy.
Qed.

End SortFacts.

(** ** Numbers *)
Section NumberFacts.

(** Integers of magnitude up to 2^53 are their own number. *)
Lemma toNumber_exact (z : Z) : Z.abs z <= 2 ^ 53 -> toNumber z = z.
Proof.
  intros H. unfold toNumber.
  destruct (Z.abs z <? 2 ^ 53) eqn:E; [reflexivity|].
  apply Z.ltb_ge in E.
  assert (Hz : z = 2 ^ 53 \/ z = - 2 ^ 53) by lia.
  destruct Hz as [-> | ->]; vm_compute; reflexivity.
Qed.

(** Rounding keeps the sign. *)
Lemma toNumber_sgn (z : Z) : Z.sgn (toNumber z) = Z.sgn z.
Proof.
  unfold toNumber.
  destruct (Z.abs z <? 2 ^ 53) eqn:E; [reflexivity|].
  apply Z.ltb_ge in E.
  set (m := Z.abs z) in *. set (e := Z.log2 m - 52).
  assert (H53 : 0 < 2 ^ 53) by reflexivity.
  assert (Hlog : 53 <= Z.log2 m).
  { rewrite <- (Z.log2_pow2 53) by lia. now apply Z.log2_le_mono. }
  assert (Hp : 0 < 2 ^ e) by (apply Z.pow_pos_nonneg; lia).
  assert (Hle : 2 ^ e <= m).
  { apply Z.le_trans with (2 ^ Z.log2 m).
    - apply Z.pow_le_mono_r; lia.
    - apply Z.log2_spec. lia. }
  assert (Hq : 1 <= m / 2 ^ e) by (apply Z.div_le_lower_bound; lia).
  set (q := m / 2 ^ e) in *.
  set (q' := if m mod 2 ^ e <? 2 ^ (e - 1) then q
             else if 2 ^ (e - 1) <? m mod 2 ^ e then q + 1
             else if Z.even q then q else q + 1).
  assert (Hq' : 0 < q' * 2 ^ e).
  { apply Z.mul_pos_pos; [|exact Hp]. subst q'.
    destruct (m mod 2 ^ e <? 2 ^ (e - 1)); [lia|].
    destruct (2 ^ (e - 1) <? m mod 2 ^ e); [lia|].
    destruct (Z.even q); lia. }
  rewrite Z.sgn_mul, Z.sgn_sgn.
  rewrite (Z.sgn_pos (q' * 2 ^ e) Hq'). apply Z.mul_1_r.
Qed.

Lemma toNumber_pos (z : Z) : 0 < toNumber z <-> 0 < z.
Proof. rewrite <- !Z.sgn_pos_iff, toNumber_sgn. reflexivity. Qed.

Example toNumber_ties_to_even :
  toNumber (2 ^ 53 + 1) = 2 ^ 53 /\
  toNumber (2 ^ 53 + 2) = 2 ^ 53 + 2 /\
  toNumber (2 ^ 53 + 3) = 2 ^ 53 + 4 /\
  toNumber (2 ^ 54 + 2) = 2 ^ 54 /\
  toNumber (- (2 ^ 53 + 1)) = - 2 ^ 53.
Proof. vm_compute. repeat split. Qed.

Example byIdDesc_cannot_tell_apart :
  byIdDesc Sample.taskLow Sample.taskHigh = 0 /\
  byIdDesc Sample.taskHigh Sample.taskLow = 0.
Proof. vm_compute. split; reflexivity. Qed.

End NumberFacts.

(** ** Loading the task list *)
Section Load.
Import TaskApp.

(** The comparator asks to swap exactly when the number of the first id
    is the smaller. *)
Lemma byIdDesc_pos (a b : Task) :
  0 < byIdDesc a b <-> toNumber (id a) < toNumber (id b).
Proof. unfold byIdDesc. rewrite toNumber_pos. lia. Qed.

Lemma byIdDesc_antisym (a b : Task) : 0 < byIdDesc a b -> byIdDesc b a <= 0.
Proof.
  intros H. apply byIdDesc_pos in H.
  destruct (Z.lt_ge_cases 0 (byIdDesc b a)) as [H'|H']; [|lia].
  apply byIdDesc_pos in H'. lia.
Qed.

Lemma inOrder_byIdDesc (a b : Task) :
  inOrder byIdDesc a b <-> toNumber (id b) <= toNumber (id a).
Proof.
  unfold inOrder. pose proof (byIdDesc_pos a b). lia.
Qed.

Lemma byIdDesc_trans (a b c : Task) :
  byIdDesc a b <= 0 -> byIdDesc b c <= 0 -> byIdDesc a c <= 0.
Proof.
  intros H1 H2.
  apply (inOrder_byIdDesc a b) in H1. apply (inOrder_byIdDesc b c) in H2.
  apply (inOrder_byIdDesc a c). lia.
Qed.

(** On ids a number holds exactly, in the order of the comparator means in
    descending id order. *)
Lemma sorted_byIdDesc (l : list Task) :
  Observe.safeIds l ->
  StronglySorted (inOrder byIdDesc) l <->
  StronglySorted (fun a b => id b <= id a) l.
Proof.
  induction l as [|a l IH]; intros Hs; [split; constructor|].
  assert (Hl : Observe.safeIds l) by (intros t Ht; apply Hs; now right).
  assert (Hf : Forall (inOrder byIdDesc a) l
               <-> Forall (fun b => id b <= id a) l).
  { rewrite !Forall_forall.
    split; intros H b Hb; specialize (H b Hb);
      [apply inOrder_byIdDesc in H | apply inOrder_byIdDesc];
      rewrite (toNumber_exact (id a)), (toNumber_exact (id b)) in *;
      try exact H; apply Hs; simpl; auto. }
  specialize (IH Hl).
  split; intros H; apply StronglySorted_inv in H as [H1 H2];
    (constructor; [apply IH, H1 | apply Hf, H2]).
Qed.

(** Tasks of one id keep their relative order. *)
Lemma insert_byIdDesc_stable (k : Z) (x : Task) (l : list Task) :
  filter (fun t => id t =? k) (insert byIdDesc x l)
  = filter (fun t => id t =? k) (x :: l).
Proof.
  induction l as [|y l IH]; [reflexivity|].
  cbn [insert]. destruct (0 <? byIdDesc x y) eqn:E; [|reflexivity].
  apply Z.ltb_lt, byIdDesc_pos in E.
  cbn [filter] in *. rewrite IH.
  destruct (id x =? k) eqn:Ex, (id y =? k) eqn:Ey; try reflexivity.
  apply Z.eqb_eq in Ex, Ey. rewrite Ex, Ey in E. lia.
Qed.

Lemma sort_byIdDesc_stable (k : Z) (l : list Task) :
  filter (fun t => id t =? k) (JS.sort byIdDesc l)
  = filter (fun t => id t =? k) l.
Proof.
  induction l as [|x l IH]; [reflexivity|].
  cbn [JS.sort]. rewrite insert_byIdDesc_stable. cbn [filter].
  now rewrite IH.
Qed.

(** Filtering and sorting an answer whose ids a number holds exactly gives
    its live part, highest id first. *)
Lemma sort_liveDescending (allTasks : list Task) :
  Observe.safeIds allTasks ->
  Observe.liveDescending allTasks
    (JS.sort byIdDesc (filter notDeleted allTasks)).
Proof.
  intros Hs.
  assert (P := sort_perm byIdDesc (filter notDeleted allTasks)).
  split; [|split; [|split]].
  - intros t. split.
    + intros Ht. apply (Permutation_in _ P), filter_In in Ht.
      destruct Ht as [Hin Ht]. split; [exact Hin|].
      unfold notDeleted in Ht. now destruct (isDeleted t).
    + intros [Hin Hd]. apply (Permutation_in _ (Permutation_sym P)).
      apply filter_In. split; [exact Hin|]. unfold notDeleted. now rewrite Hd.
  - exact P.
  - apply sorted_byIdDesc.
    + intros t Ht. apply (Permutation_in _ P), filter_In in Ht.
      apply Hs, Ht.
    + apply sort_sorted; [apply byIdDesc_antisym | apply byIdDesc_trans].
  - intros k. apply sort_byIdDesc_stable.
Qed.

(** What [loadTasks] does once the guard is passed and the fetch answers. *)
Lemma loadTasks_fetched (snap : State) (c : Contract) (allTasks : list Task) :
  truthy (account snap) = true ->
  getMyTask c = Ok allTasks ->
  loadTasks snap (Some c)
  = ([SetLoading true; Call CallGetMyTask;
      SetTasks (JS.sort byIdDesc (filter notDeleted allTasks));
      SetLoading false], Ok tt).
Proof.
  intros Ha Hg. unfold loadTasks, await. rewrite Ha, Hg. reflexivity.
Qed.

(** What it does when the fetch is rejected. *)
Lemma loadTasks_rejected (snap : State) (c : Contract) (e : JsError) :
  truthy (account snap) = true ->
  getMyTask c = Throw e ->
  loadTasks snap (Some c)
  = ([SetLoading true; Call CallGetMyTask;
      Console CError (lit "Failed to load tasks:");
      Toast Error (lit "Error loading tasks: "
                   ++ orElse (reason e) (message e));
      SetLoading false], Ok tt).
Proof.
  intros Ha Hg. unfold loadTasks, await. rewrite Ha, Hg. reflexivity.
Qed.

End Load.




Example loadTasks_sample :
  TaskApp.tasks
    (TaskApp.run TaskApp.initial
       (trace (TaskApp.loadTasks
                 (Sample.connected Sample.ledger Sample.emptyDraft)
                 (Some Sample.ledger))))
  = [Sample.task3; Sample.task1].
Proof. reflexivity. Qed.

(** ** Validation of the draft *)
Section Validation.
Import TaskApp Observe.

Lemma nonEmpty_false (s : jsstring) : nonEmpty s = false <-> s = [].
Proof. destruct s; simpl; split; congruence. Qed.

Lemma nonEmpty_true (s : jsstring) : nonEmpty s = true <-> s <> [].
Proof. destruct s; simpl; split; congruence. Qed.

(** [validateTaskInput] either raises one of its four complaints and
    answers false, or raises nothing and answers true, which it does
    exactly on the valid drafts. *)
Lemma validateTaskInput_cases (snap : State) :
  (~ validDraft (newTask snap) /\
   exists msg, In msg validationMessages /\
               validateTaskInput snap = ([Toast Error msg], Ok false))
  \/ (validDraft (newTask snap) /\ validateTaskInput snap = ([], Ok true)).
Proof.
  unfold validateTaskInput, validDraft.
  destruct (nonEmpty (trim (title (newTask snap)))) eqn:E1; simpl.
  2:{ left. apply nonEmpty_false in E1. split; [tauto|].
      eexists; split; [|reflexivity]. simpl; auto. }
  destruct (nonEmpty (trim (text (newTask snap)))) eqn:E2; simpl.
  2:{ left. apply nonEmpty_false in E2. split; [tauto|].
      eexists; split; [|reflexivity]. simpl; auto. }
  destruct (100 <? List.length (title (newTask snap)))%nat eqn:E3.
  { left. apply Nat.ltb_lt in E3. split; [lia|].
    eexists; split; [|reflexivity]. simpl; auto. }
  destruct (500 <? List.length (text (newTask snap)))%nat eqn:E4.
  { left. apply Nat.ltb_lt in E4. split; [lia|].
    eexists; split; [|reflexivity]. simpl; auto. }
  right. apply nonEmpty_true in E1, E2. apply Nat.ltb_ge in E3, E4.
  repeat split; assumption.
Qed.

(** [addTask] on a draft that does not pass: nothing but the complaint. *)
Lemma addTask_invalid (snap : State) :
  truthy (account snap) = true ->
  ~ validDraft (newTask snap) ->
  exists msg, In msg validationMessages /\
              addTask snap = ([PreventDefault; Toast Error msg], Ok tt).
Proof.
  intros Ha Hinv. unfold addTask. rewrite Ha. simpl.
  destruct (validateTaskInput_cases snap) as [[_ (msg & Hm & E)]|[Hv _]];
    [|contradiction].
  exists msg. split; [exact Hm|]. rewrite E. reflexivity.
Qed.

(** [addTask] from a render without account: nothing but the request to
    connect. *)
Lemma addTask_disconnected (snap : State) :
  truthy (account snap) = false ->
  addTask snap = ([PreventDefault; Toast Error notConnectedMessage], Ok tt).
Proof. intros Ha. unfold addTask. rewrite Ha. reflexivity. Qed.

Lemma addTask_invalid_noNetwork (snap : State) :
  ~ validDraft (newTask snap) -> noNetwork (trace (addTask snap)).
Proof.
  intros Hinv c. destruct (truthy (account snap)) eqn:Ha.
  - destruct (addTask_invalid snap Ha Hinv) as (msg & _ & ->).
    simpl. intros [H|[H|[]]]; discriminate.
  - rewrite (addTask_disconnected snap Ha).
    simpl. intros [H|[H|[]]]; discriminate.
Qed.

End Validation.

(** C2. A draft with an empty title, an empty text, a title of more than
    100 characters or a text of more than 500 characters never reaches the
    network: [addTask] makes no call at all, sets no state and returns.
    From a render that shows the form (an account is set) what it raises
    is one of the complaints of the validation and nothing else. *)
Theorem addTask_rejects_invalid_draft (snap s : TaskApp.State) :
  let d := TaskApp.newTask snap in
  TaskApp.title d = [] \/ TaskApp.text d = [] \/
  (100 < List.length (TaskApp.title d))%nat \/
  (500 < List.length (TaskApp.text d))%nat ->
  Observe.noNetwork (trace (TaskApp.addTask snap)) /\
  TaskApp.run s (trace (TaskApp.addTask snap)) = s /\
  (TaskApp.formView snap <> None ->
   exists msg, In msg Observe.validationMessages /\
     TaskApp.addTask snap
     = ([TaskApp.PreventDefault; TaskApp.Toast Error msg], Ok tt)).
Proof.
  intros d H.
  assert (Hinv : ~ Observe.validDraft d).
  { unfold Observe.validDraft. intros (H1 & H2 & H3 & H4).
    destruct H as [H|[H|[H|H]]]; try lia.
    - apply H1. rewrite H. reflexivity.
    - apply H2. rewrite H. reflexivity. }
  split; [now apply addTask_invalid_noNetwork|]. split.
  - destruct (truthy (TaskApp.account snap)) eqn:Ha.
    + destruct (addTask_invalid snap Ha Hinv) as (msg & _ & ->). reflexivity.
    + rewrite (addTask_disconnected snap Ha). reflexivity.
  - intros Hform. apply addTask_invalid; [|exact Hinv].
    unfold TaskApp.formView in Hform.
    destruct (truthy (TaskApp.account snap)); congruence.
Qed.

Lemma addTask_rejects_invalid_draft_witness :
  TaskApp.title Sample.emptyDraft = [] /\
  Observe.noNetwork
    (trace (TaskApp.addTask Sample.emptyRender)).
Proof.
  split; [reflexivity|].
  exact (proj1 (addTask_rejects_invalid_draft
                  Sample.emptyRender TaskApp.initial (or_introl eq_refl))).
Defined.

Example addTask_long_title :
  TaskApp.addTask
    (Sample.connected Sample.ledger
       (TaskApp.mkDraft (repeat 97%N 101) (lit "text")))
  = ([TaskApp.PreventDefault;
      TaskApp.Toast Error (lit "Task title too long (max 100 characters)")],
     Ok tt).
Proof. reflexivity. Qed.

Example addTask_title_of_100 :
  In (TaskApp.Call (CallAddTask (lit "text") (repeat 97%N 100) false
                      (Some 200000)))
     (trace (TaskApp.addTask
               (Sample.connected Sample.ledger
                  (TaskApp.mkDraft (repeat 97%N 100) (lit "text"))))).
Proof. vm_compute. tauto. Qed.

(** ** Submitting a task *)
Section Submit.
Import TaskApp Observe.

Lemma eqb_eq (s t : jsstring) : JS.eqb s t = true <-> s = t.
Proof.
  revert t; induction s as [|a s IH]; intros [|b t]; simpl;
    try (split; congruence).
  rewrite andb_true_iff, N.eqb_eq, IH. split.
  - intros [-> ->]; reflexivity.
  - intros E; injection E; auto.
Qed.

(** The search of the receipt finds nothing exactly when the receipt
    lists no event of the name. *)
Lemma findEvent_none (name : string) (receipt : Receipt) :
  findEvent (eventNamed name) receipt = None <-> ~ hasEvent name receipt.
Proof.
  unfold findEvent, hasEvent, JS.find.
  destruct (events receipt) as [evs|].
  - split.
    + intros Hf (evs' & e & E & Hin & He). injection E as <-.
      pose proof (find_none _ _ Hf e Hin) as Hn.
      unfold eventNamed in Hn. rewrite He in Hn.
      assert (JS.eqb (lit name) (lit name) = true) by now apply eqb_eq.
      congruence.
    + intros Hn. destruct (List.find (eventNamed name) evs) as [e|] eqn:E;
        [|reflexivity].
      exfalso. apply Hn. apply find_some in E as [Hin He].
      exists evs, e. repeat split; [exact Hin|].
      unfold eventNamed in He. destruct (event e) as [n|]; [|discriminate].
      apply eqb_eq in He. now subst.
  - split; [|reflexivity]. intros _ (evs & e & E & _). discriminate.
Qed.

(** The run of [addTask] whose transaction confirms without the event. *)
Lemma addTask_event_missing
    (snap : State) (c : Contract) (tx : Tx) (receipt : Receipt) :
  truthy (account snap) = true ->
  validDraft (newTask snap) ->
  contract snap = Some c ->
  Ledger.addTask c (trim (text (newTask snap))) (trim (title (newTask snap)))
                 false (Some 200000) = Ok tx ->
  wait tx = Ok receipt ->
  ~ hasEvent "AddTask" receipt ->
  addTask snap
  = ([PreventDefault; SetLoading true;
      Call (CallAddTask (trim (text (newTask snap)))
                        (trim (title (newTask snap))) false (Some 200000));
      Toast Info (lit "Adding task... Please wait for confirmation");
      Call CallWait;
      Console CError (lit "Failed to add task:");
      Toast Error addEventMissingMessage;
      SetLoading false], Ok tt).
Proof.
  intros Ha Hv Hc Htx Hw He. apply findEvent_none in He.
  unfold addTask. rewrite Ha. simpl.
  destruct (validateTaskInput_cases snap) as [[Hn _]|[_ ->]];
    [contradiction|].
  simpl. rewrite Hc. unfold await. simpl. rewrite Htx. simpl.
  rewrite Hw. simpl. rewrite He. reflexivity.
Qed.

End Submit.

(** C3. When the add transaction is submitted and confirms but its receipt
    lists no event named AddTask, the operation reports the failure (one
    error toast, saying that the event was not found, and no success
    toast) and leaves the draft alone: [setNewTask] is not called, so title
    and text are what they were. *)
Theorem addTask_confirmed_without_event_is_rejected
    (snap s : TaskApp.State) (c : Contract) (tx : Tx) (receipt : Receipt) :
  let d := TaskApp.newTask snap in
  truthy (TaskApp.account snap) = true ->
  Observe.validDraft d ->
  TaskApp.contract snap = Some c ->
  Ledger.addTask c (trim (TaskApp.text d)) (trim (TaskApp.title d))
                 false (Some 200000) = Ok tx ->
  wait tx = Ok receipt ->
  ~ Observe.hasEvent "AddTask" receipt ->
  let t := trace (TaskApp.addTask snap) in
  Observe.errorToasts t = [Observe.addEventMissingMessage] /\
  (forall msg, ~ In (TaskApp.Toast Success msg) t) /\
  (forall d', ~ In (TaskApp.SetNewTask d') t) /\
  TaskApp.newTask (TaskApp.run s t) = TaskApp.newTask s.
Proof.
  intros d Ha Hv Hc Htx Hw He t. subst t d.
  rewrite (addTask_event_missing snap c tx receipt Ha Hv Hc Htx Hw He).
  simpl. repeat split; try reflexivity.
  - intros msg H. repeat (destruct H as [H|H]; [discriminate|]). exact H.
  - intros d' H. repeat (destruct H as [H|H]; [discriminate|]). exact H.
Qed.

Lemma addTask_confirmed_without_event_is_rejected_witness :
  truthy (TaskApp.account Sample.silentRender) = true /\
  TaskApp.contract Sample.silentRender = Some Sample.silentLedger /\
  wait (mkTx (Ok Sample.silentReceipt)) = Ok Sample.silentReceipt /\
  TaskApp.newTask
    (TaskApp.run Sample.silentRender
       (trace (TaskApp.addTask Sample.silentRender)))
  = Sample.goodDraft.
Proof.
  split; [reflexivity|]. split; [reflexivity|]. split; [reflexivity|].
  refine (proj2 (proj2 (proj2
    (addTask_confirmed_without_event_is_rejected
       Sample.silentRender Sample.silentRender
       Sample.silentLedger (mkTx (Ok Sample.silentReceipt))
       Sample.silentReceipt eq_refl _ eq_refl eq_refl eq_refl _)))).
  - unfold Observe.validDraft. repeat split; simpl; try discriminate; lia.
  - intros (evs & e & E & Hin & He). injection E as <-.
    destruct Hin as [<-|[]]. discriminate He.
Defined.

(** Membership in a trace that has been computed. *)
Ltac in_trace H :=
  simpl in H;
  repeat match type of H with
         | _ \/ _ => destruct H as [H|H]
         | False => destruct H
         | _ = _ => first [discriminate H | inversion H; subst; clear H]
         end.

(** The arguments of every add call are the trimmed draft. *)
Lemma addTask_calls_trimmed (snap : TaskApp.State)
    (text' title' : jsstring) (isDel : bool) (gas : option Z) :
  In (TaskApp.Call (CallAddTask text' title' isDel gas))
     (trace (TaskApp.addTask snap)) ->
  text' = trim (TaskApp.text (TaskApp.newTask snap)) /\
  title' = trim (TaskApp.title (TaskApp.newTask snap)) /\
  isDel = false /\ gas = Some 200000.
Proof.
  unfold TaskApp.addTask, TaskApp.loadTasks, TaskApp.await.
  destruct (truthy (TaskApp.account snap)) eqn:Ha; simpl.
  2:{ intros H; in_trace H. }
  destruct (validateTaskInput_cases snap) as [[_ (msg & _ & ->)]|[_ ->]]; simpl.
  { intros H; in_trace H. }
  destruct (TaskApp.contract snap) as [c|]; simpl.
  2:{ intros H; in_trace H. }
  destruct (Ledger.addTask c _ _ false (Some 200000)) as [tx|e]; simpl.
  2:{ intros H; in_trace H; auto. }
  destruct (wait tx) as [receipt|e]; simpl.
  2:{ intros H; in_trace H; auto. }
  destruct (findEvent (eventNamed "AddTask") receipt); simpl.
  2:{ intros H; in_trace H; auto. }
  destruct (getMyTask c); simpl; intros H; in_trace H; auto.
Qed.

(** A valid draft from a connected render is submitted, trimmed. *)
Lemma addTask_submits_trimmed (snap : TaskApp.State) (c : Contract) :
  truthy (TaskApp.account snap) = true ->
  Observe.validDraft (TaskApp.newTask snap) ->
  TaskApp.contract snap = Some c ->
  In (TaskApp.Call
        (CallAddTask (trim (TaskApp.text (TaskApp.newTask snap)))
                     (trim (TaskApp.title (TaskApp.newTask snap)))
                     false (Some 200000)))
     (trace (TaskApp.addTask snap)).
Proof.
  intros Ha Hv Hc.
  unfold TaskApp.addTask, TaskApp.loadTasks, TaskApp.await.
  rewrite Ha, Hc. simpl.
  destruct (validateTaskInput_cases snap) as [[Hn _]|[_ ->]];
    [contradiction|]. simpl.
  destruct (Ledger.addTask c _ _ false (Some 200000)) as [tx|e]; simpl;
    [|auto].
  destruct (wait tx) as [receipt|e]; simpl; [|auto].
  destruct (findEvent (eventNamed "AddTask") receipt); simpl; [|auto].
  destruct (getMyTask c); simpl; auto.
Qed.

(** C10. A draft whose title or text is white space only is turned down
    like an empty one, whatever its length: no call is made and, from a
    render that shows the form, the run is one complaint of the
    validation.  What [addTask] does send to the contract, whenever it
    sends, is the trimmed text and the trimmed title; and it does send
    them for a valid draft from a connected render. *)
Theorem addTask_trims_and_rejects_blank (snap : TaskApp.State) :
  let d := TaskApp.newTask snap in
  let t := trace (TaskApp.addTask snap) in
  (forallb isWhiteSpace (TaskApp.title d) = true \/
   forallb isWhiteSpace (TaskApp.text d) = true ->
   Observe.noNetwork t /\
   (TaskApp.formView snap <> None ->
    exists msg, In msg Observe.validationMessages /\
      TaskApp.addTask snap
      = ([TaskApp.PreventDefault; TaskApp.Toast Error msg], Ok tt))) /\
  (forall text' title' isDel gas,
     In (TaskApp.Call (CallAddTask text' title' isDel gas)) t ->
     text' = trim (TaskApp.text d) /\ title' = trim (TaskApp.title d)) /\
  (forall c,
     truthy (TaskApp.account snap) = true ->
     Observe.validDraft d ->
     TaskApp.contract snap = Some c ->
     In (TaskApp.Call (CallAddTask (trim (TaskApp.text d))
                                   (trim (TaskApp.title d))
                                   false (Some 200000))) t).
Proof.
  intros d t. split; [|split].
  - intros H.
    assert (Hinv : ~ Observe.validDraft d).
    { intros (H1 & H2 & _). destruct H as [H|H].
      - apply H1, trim_blank, H.
      - apply H2, trim_blank, H. }
    split; [now apply addTask_invalid_noNetwork|].
    intros Hform. apply addTask_invalid; [|exact Hinv].
    unfold TaskApp.formView in Hform.
    destruct (truthy (TaskApp.account snap)); congruence.
  - intros text' title' isDel gas H.
    destruct (addTask_calls_trimmed snap _ _ _ _ H) as (H1 & H2 & _).
    now split.
  - intros c. apply addTask_submits_trimmed.
Qed.

Lemma addTask_trims_and_rejects_blank_witness :
  (0 < List.length (TaskApp.title Sample.blankDraft))%nat /\
  forallb isWhiteSpace (TaskApp.title Sample.blankDraft) = true /\
  Observe.noNetwork (trace (TaskApp.addTask Sample.blankRender)) /\
  In (TaskApp.Call (CallAddTask (lit "B") (lit "A") false (Some 200000)))
     (trace (TaskApp.addTask Sample.goodRender)).
Proof.
  split; [simpl; lia|]. split; [reflexivity|]. split.
  - exact (proj1 (proj1 (addTask_trims_and_rejects_blank Sample.blankRender)
                    (or_introl eq_refl))).
  - refine (proj2 (proj2 (addTask_trims_and_rejects_blank Sample.goodRender))
              Sample.ledger eq_refl _ eq_refl).
    unfold Observe.validDraft. repeat split; simpl; try discriminate; lia.
Defined.

(** ** Deleting a task *)
Section Delete.
Import TaskApp Observe.

(** The error toast of the catch block of [deleteTask]. *)
Lemma deleteTask_rejected_toasts
    (snap : State) (c : Contract) (taskId : Z) (e : JsError) :
  truthy (account snap) = true ->
  contract snap = Some c ->
  rejectedWith c taskId e ->
  errorToasts (trace (deleteTask snap taskId))
  = [if includes (message e) (lit "owner")
     then notOwnerMessage
     else orElse (reason e) (message e)].
Proof.
  intros Ha Hc Hr. unfold deleteTask, await. rewrite Ha, Hc. simpl.
  destruct Hr as [Hr|(tx & Hr & Hw)]; rewrite Hr; simpl.
  - destruct (includes (message e) (lit "owner")); reflexivity.
  - rewrite Hw. simpl.
    destruct (includes (message e) (lit "owner")); reflexivity.
Qed.

End Delete.

(** C4, as the claim states it, fails: the handler looks for "owner" in
    the message of the error, not in its reason.  A rejection whose reason
    is "caller is not the owner" under the message "transaction failed" is
    reported with its raw reason, not with the not-the-owner notice. *)
Lemma deleteTask_owner_in_reason_only_is_not_classified :
  Observe.rejectedWith (Sample.failingLedger Sample.reasonOnlyError) 3
                       Sample.reasonOnlyError /\
  Observe.contains (lit "caller is not the owner") (lit "owner") /\
  reason Sample.reasonOnlyError = Some (lit "caller is not the owner") /\
  Observe.errorToasts
    (trace (TaskApp.deleteTask
              (Sample.connected (Sample.failingLedger Sample.reasonOnlyError)
                                Sample.emptyDraft) 3))
  = [lit "caller is not the owner"] /\
  [lit "caller is not the owner"] <> [Observe.notOwnerMessage].
Proof.
  split; [left; reflexivity|].
  split; [apply includes_spec; reflexivity|].
  split; [reflexivity|]. split; [reflexivity|]. discriminate.
Qed.

(** C4, amended.  When the delete call is rejected, on submission or while
    waiting for the confirmation, the operation raises exactly one error
    toast.  If the message of the error contains "owner", the toast is the
    not-the-owner notice.  For every other rejection the toast is the text
    of the error itself: its reason when the error has one that is not
    empty, its message otherwise. *)
Theorem deleteTask_rejection_is_classified_by_message
    (snap : TaskApp.State) (c : Contract) (taskId : Z) (e : JsError) :
  truthy (TaskApp.account snap) = true ->
  TaskApp.contract snap = Some c ->
  Observe.rejectedWith c taskId e ->
  let t := trace (TaskApp.deleteTask snap taskId) in
  (Observe.contains (message e) (lit "owner") ->
   Observe.errorToasts t = [Observe.notOwnerMessage]) /\
  (~ Observe.contains (message e) (lit "owner") ->
   (forall r, reason e = Some r -> r <> [] ->
              Observe.errorToasts t = [r]) /\
   (reason e = None \/ reason e = Some [] ->
    Observe.errorToasts t = [message e])).
Proof.
  intros Ha Hc Hr t. subst t.
  rewrite (deleteTask_rejected_toasts snap c taskId e Ha Hc Hr).
  split; intros H.
  - apply includes_spec in H. now rewrite H.
  - assert (E : includes (message e) (lit "owner") = false).
    { destruct (includes (message e) (lit "owner")) eqn:E; [|reflexivity].
      exfalso. apply H, includes_spec, E. }
    rewrite E. split.
    + intros r Hre Hne. unfold orElse. rewrite Hre.
      destruct r; [contradiction | reflexivity].
    + intros [Hre|Hre]; unfold orElse; rewrite Hre; reflexivity.
Qed.

Lemma deleteTask_rejection_is_classified_by_message_witness :
  Observe.rejectedWith (Sample.failingLedger Sample.ownerError) 3
                       Sample.ownerError /\
  Observe.errorToasts
    (trace (TaskApp.deleteTask
              (Sample.connected (Sample.failingLedger Sample.ownerError)
                                Sample.emptyDraft) 3))
  = [Observe.notOwnerMessage] /\
  Observe.rejectedWith (Sample.failingLedger Sample.gasError) 3
                       Sample.gasError /\
  Observe.errorToasts
    (trace (TaskApp.deleteTask
              (Sample.connected (Sample.failingLedger Sample.gasError)
                                Sample.emptyDraft) 3))
  = [lit "out of gas"] /\
  Observe.errorToasts
    (trace (TaskApp.deleteTask
              (Sample.connected (Sample.failingLedger Sample.plainError)
                                Sample.emptyDraft) 3))
  = [lit "nonce too low"].
Proof.
  assert (Hno : forall m : jsstring,
             includes m (lit "owner") = false ->
             ~ Observe.contains m (lit "owner")).
  { intros m E H. apply includes_spec in H. congruence. }
  split; [left; reflexivity|]. split.
  { refine (proj1 (deleteTask_rejection_is_classified_by_message
                     (Sample.connected (Sample.failingLedger Sample.ownerError)
                                       Sample.emptyDraft)
                     (Sample.failingLedger Sample.ownerError) 3
                     Sample.ownerError eq_refl eq_refl (or_introl eq_refl)) _).
    apply includes_spec. reflexivity. }
  split; [left; reflexivity|]. split.
  { refine (proj1 (proj2 (deleteTask_rejection_is_classified_by_message
                     (Sample.connected (Sample.failingLedger Sample.gasError)
                                       Sample.emptyDraft)
                     (Sample.failingLedger Sample.gasError) 3
                     Sample.gasError eq_refl eq_refl (or_introl eq_refl))
                   (Hno (message Sample.gasError) eq_refl))
              (lit "out of gas") eq_refl _).
    discriminate. }
  exact (proj2 (proj2 (deleteTask_rejection_is_classified_by_message
                  (Sample.connected (Sample.failingLedger Sample.plainError)
                                    Sample.emptyDraft)
                  (Sample.failingLedger Sample.plainError) 3
                  Sample.plainError eq_refl eq_refl (or_introl eq_refl))
                (Hno (message Sample.plainError) eq_refl))
           (or_introl eq_refl)).
Defined.

(** An error whose message repeats its reason, as the messages built by
    the ethers library do, is told apart by its reason just as well. *)
Lemma deleteTask_owner_in_reason
    (snap : TaskApp.State) (c : Contract) (taskId : Z) (e : JsError)
    (r : jsstring) :
  truthy (TaskApp.account snap) = true ->
  TaskApp.contract snap = Some c ->
  Observe.rejectedWith c taskId e ->
  reason e = Some r ->
  Observe.contains (message e) r ->
  Observe.contains r (lit "owner") ->
  Observe.errorToasts (trace (TaskApp.deleteTask snap taskId))
  = [Observe.notOwnerMessage].
Proof.
  intros Ha Hc Hr _ (l1 & r1 & Hm) (l2 & r2 & Ho).
  rewrite (deleteTask_rejected_toasts snap c taskId e Ha Hc Hr).
  assert (E : includes (message e) (lit "owner") = true).
  { apply includes_spec. exists (l1 ++ l2), (r2 ++ r1).
    rewrite Hm, Ho. now rewrite <- !app_assoc. }
  now rewrite E.
Qed.

Example deleteTask_other_rejection :
  Observe.errorToasts
    (trace (TaskApp.deleteTask
              (Sample.connected (Sample.failingLedger Sample.gasError)
                                Sample.emptyDraft) 3))
  = [lit "out of gas"].
Proof. reflexivity. Qed.

(** ** Mutations while another one is outstanding *)
Section Busy.
Import TaskApp Observe.

(** Split on the owner test of the catch block, where it is undecided. *)
Ltac owner_case :=
  try match goal with
      | |- context [includes (message ?e) ?p] =>
          destruct (includes (message e) p)
      end.

Lemma addTask_calls_under_loading (snap : State) (b : bool) :
  callsUnderLoading b (trace (addTask snap)) = true.
Proof.
  unfold addTask, loadTasks, await.
  destruct (truthy (account snap)); simpl; [|reflexivity].
  destruct (validateTaskInput_cases snap) as [[_ (msg & _ & ->)]|[_ ->]];
    simpl; [reflexivity|].
  destruct (contract snap) as [c|]; simpl; [|reflexivity].
  destruct (Ledger.addTask c _ _ false (Some 200000)) as [tx|e]; simpl;
    [|reflexivity].
  destruct (wait tx) as [receipt|e]; simpl; [|reflexivity].
  destruct (findEvent (eventNamed "AddTask") receipt); simpl;
    [|reflexivity].
  destruct (getMyTask c); reflexivity.
Qed.

Lemma deleteTask_calls_under_loading (snap : State) (taskId : Z) (b : bool) :
  callsUnderLoading b (trace (deleteTask snap taskId)) = true.
Proof.
  unfold deleteTask, loadTasks, await.
  destruct (truthy (account snap)); simpl; [|reflexivity].
  destruct (contract snap) as [c|]; simpl.
  2:{ owner_case; reflexivity. }
  destruct (Ledger.deleteTask c taskId (Some 100000)) as [tx|e]; simpl.
  2:{ owner_case; reflexivity. }
  destruct (wait tx) as [receipt|e]; simpl.
  2:{ owner_case; reflexivity. }
  destruct (findEvent (eventNamed "DeleteTask") receipt); simpl.
  2:{ owner_case; reflexivity. }
  destruct (getMyTask c); reflexivity.
Qed.

End Busy.

(** C5, as the claim states it, fails: from a render in which an operation
    is outstanding (loading is set), [deleteTask] raises no error and sends
    the delete call to the contract. *)
Lemma deleteTask_while_loading_calls_contract :
  TaskApp.loading Sample.busyRender = true /\
  In (TaskApp.Call (CallDeleteTask 3 (Some 100000)))
     (trace (TaskApp.deleteTask Sample.busyRender 3)) /\
  Observe.errorToasts (trace (TaskApp.deleteTask Sample.busyRender 3)) = [].
Proof. vm_compute. auto. Qed.

(** C5, amended.  No mutation call is answered with Busy: [addTask] and
    [deleteTask] never read the loading flag, so a call made while it is
    set runs, and calls the contract, exactly like one made while it is
    clear.  What the component has instead: each of the two handlers makes
    its network calls between its own [setLoading(true)] and its own last
    [setLoading(false)], and a render with the flag set disables the
    inputs and the submit button of the form and shows no task card, hence
    no Delete button.  The flag is shared, though: a [loadTasks] that runs
    to its end, as after an account change, clears it whatever is still
    pending, so the page does not exclude a second mutation either. *)
Theorem mutation_handlers_never_answer_busy
    (snap s : TaskApp.State) (taskId : Z) :
  (forall b, TaskApp.addTask (Observe.withLoading b snap)
             = TaskApp.addTask snap) /\
  (forall b, TaskApp.deleteTask (Observe.withLoading b snap) taskId
             = TaskApp.deleteTask snap taskId) /\
  (forall b, Observe.callsUnderLoading b (trace (TaskApp.addTask snap)) = true) /\
  (forall b, Observe.callsUnderLoading b
               (trace (TaskApp.deleteTask snap taskId)) = true) /\
  (TaskApp.loading snap = true ->
   (forall f, TaskApp.formView snap = Some f ->
      TaskApp.titleDisabled f = true /\ TaskApp.textDisabled f = true /\
      TaskApp.submitDisabled f = true) /\
   (forall cards, TaskApp.listView snap <> TaskApp.Cards cards)) /\
  (forall pending c,
     truthy (TaskApp.account snap) = true ->
     TaskApp.loading
       (TaskApp.run s (pending ++ trace (TaskApp.loadTasks snap (Some c))))
     = false).
Proof.
  split; [reflexivity|]. split; [reflexivity|].
  split; [apply addTask_calls_under_loading|].
  split; [apply deleteTask_calls_under_loading|].
  split.
  - intros Hl. unfold TaskApp.formView, TaskApp.listView. rewrite Hl. split.
    + intros f. destruct (truthy (TaskApp.account snap)); [|discriminate].
      intros E. injection E as <-. auto.
    + intros cards. destruct (truthy (TaskApp.account snap)); discriminate.
  - intros pending c Ha. unfold TaskApp.run. rewrite fold_left_app.
    unfold TaskApp.loadTasks, TaskApp.await. rewrite Ha.
    destruct (getMyTask c); reflexivity.
Qed.

Lemma mutation_handlers_never_answer_busy_witness :
  TaskApp.loading Sample.busyRender = true /\
  (forall cards, TaskApp.listView Sample.busyRender <> TaskApp.Cards cards) /\
  truthy (TaskApp.account Sample.goodRender) = true /\
  TaskApp.loading
    (TaskApp.run Sample.goodRender
       ([TaskApp.SetLoading true;
         TaskApp.Call (CallDeleteTask 3 (Some 100000))]
        ++ trace (TaskApp.loadTasks Sample.goodRender (Some Sample.ledger))))
  = false.
Proof.
  split; [reflexivity|]. split.
  - exact (proj2 (proj1 (proj2 (proj2 (proj2 (proj2
      (mutation_handlers_never_answer_busy
         Sample.busyRender Sample.busyRender 3))))) eq_refl)).
  - split; [reflexivity|].
    exact (proj2 (proj2 (proj2 (proj2 (proj2
      (mutation_handlers_never_answer_busy
         Sample.goodRender Sample.goodRender 3)))))
      [TaskApp.SetLoading true;
       TaskApp.Call (CallDeleteTask 3 (Some 100000))]
      Sample.ledger eq_refl).
Defined.

(** A delete is pending, its transaction submitted; an account change
    arrives and its load completes: the page shows enabled Delete buttons
    again. *)
Example pending_delete_unlocked_by_account_change :
  TaskApp.listView
    (TaskApp.run Sample.goodRender
       (firstn 2 (trace (TaskApp.deleteTask Sample.goodRender 3))
        ++ trace (TaskApp.handleAccountChange Sample.goodRender
                    [lit "0xBBB"])))
  = TaskApp.Cards [(3, false); (1, false)].
Proof. vm_compute. reflexivity. Qed.

(** ** The session *)

(** C6, as the claim states it, fails for the listener of the plain
    component: on an empty account list it only stores [accounts[0]], so
    the tasks on the page stay. *)
Lemma App_listener_keeps_tasks_on_empty_accounts :
  App.tasks Sample.appLoaded = [Sample.task1; Sample.task3] /\
  App.tasks (App.run Sample.appLoaded (trace (App.onAccountsChanged [])))
  = [Sample.task1; Sample.task3] /\
  App.tasks (App.run Sample.appLoaded (trace (App.onAccountsChanged [])))
  <> [].
Proof.
  split; [reflexivity|]. split; [reflexivity|]. discriminate.
Qed.

(** C6, amended.  On an account change that carries no account:
    [handleAccountChange] sets the account to the empty string, so the
    session counts as not connected, and sets the task list to empty,
    whatever the state was, and makes no call; the listener of the plain
    component sets the account to undefined, so it too counts as not
    connected, and leaves the task list and the contract handle as they
    were. *)
Theorem empty_accounts_disconnect_and_TaskApp_clears_tasks
    (snap s : TaskApp.State) (sA : App.State) :
  let t := trace (TaskApp.handleAccountChange snap []) in
  let tA := trace (App.onAccountsChanged []) in
  (TaskApp.account (TaskApp.run s t) = Some [] /\
   truthy (TaskApp.account (TaskApp.run s t)) = false /\
   TaskApp.tasks (TaskApp.run s t) = [] /\
   Observe.noNetwork t) /\
  (App.account (App.run sA tA) = None /\
   truthy (App.account (App.run sA tA)) = false /\
   App.tasks (App.run sA tA) = App.tasks sA /\
   App.contract (App.run sA tA) = App.contract sA).
Proof.
  simpl. split; [|repeat split].
  split; [reflexivity|]. split; [reflexivity|]. split; [reflexivity|].
  intros c H. in_trace H.
Qed.

Example handleAccountChange_empty_sample :
  TaskApp.handleAccountChange Sample.goodRender []
  = ([TaskApp.SetAccount (Some []); TaskApp.SetTasks [];
      TaskApp.Toast Info (lit "Wallet disconnected")], Ok tt).
Proof. reflexivity. Qed.

(** The listener of the plain component only stores [accounts[0]]: on an
    empty list the account becomes undefined and the tasks stay. *)
Lemma App_onAccountsChanged_empty (s : App.State) :
  App.account (App.run s (trace (App.onAccountsChanged []))) = None /\
  App.tasks (App.run s (trace (App.onAccountsChanged []))) = App.tasks s.
Proof. split; reflexivity. Qed.

(** C7. When the wallet reports a chain other than the expected one,
    [connectWallet] raises the wrong-network error and stops: it does not
    ask the wallet for accounts, sets neither the account nor the contract
    handle, loads nothing and announces no success; account, contract and
    tasks are what they were. *)
Theorem connectWallet_wrong_network_aborts
    (snap s : TaskApp.State) (provider : Ethereum) (network : Network) :
  getNetwork provider = Ok network ->
  chainId network <> TaskApp.expectedNetwork ->
  let t := trace (TaskApp.connectWallet snap (Some provider)) in
  t = [TaskApp.SetLoading true; TaskApp.Call CallGetNetwork;
       TaskApp.Toast Error Observe.wrongNetworkMessage;
       TaskApp.SetLoading false] /\
  ~ In (TaskApp.Call CallRequestAccounts) t /\
  (forall a, ~ In (TaskApp.SetAccount a) t) /\
  (forall c, ~ In (TaskApp.SetContract c) t) /\
  TaskApp.account (TaskApp.run s t) = TaskApp.account s /\
  TaskApp.contract (TaskApp.run s t) = TaskApp.contract s /\
  TaskApp.tasks (TaskApp.run s t) = TaskApp.tasks s.
Proof.
  intros Hn Hc t.
  assert (E : t = [TaskApp.SetLoading true; TaskApp.Call CallGetNetwork;
                   TaskApp.Toast Error Observe.wrongNetworkMessage;
                   TaskApp.SetLoading false]).
  { subst t. unfold TaskApp.connectWallet, TaskApp.checkNetwork, TaskApp.await.
    rewrite Hn. simpl.
    apply Z.eqb_neq in Hc. rewrite Hc. reflexivity. }
  rewrite E. split; [reflexivity|].
  split; [intros H; in_trace H|].
  split; [intros a H; in_trace H|].
  split; [intros c H; in_trace H|].
  repeat split.
Qed.

Lemma connectWallet_wrong_network_aborts_witness :
  getNetwork Sample.goerli = Ok (mkNetwork 5) /\
  chainId (mkNetwork 5) <> TaskApp.expectedNetwork /\
  ~ In (TaskApp.Call CallRequestAccounts)
       (trace (TaskApp.connectWallet TaskApp.initial (Some Sample.goerli))).
Proof.
  split; [reflexivity|]. split; [discriminate|].
  refine (proj1 (proj2 (connectWallet_wrong_network_aborts
                   TaskApp.initial TaskApp.initial Sample.goerli
                   (mkNetwork 5) eq_refl _))).
  discriminate.
Defined.

(** C8. When the fetch of [loadTasks] is rejected, the handler reports the
    failure in an error toast and touches neither the task list nor the
    session: [setTasks], [setAccount] and [setContract] are not called, so
    the list, the account and the contract handle are what they were, and
    the session is connected after the load if it was before. *)
Theorem loadTasks_failure_keeps_list_and_session
    (snap s : TaskApp.State) (c : Contract) (e : JsError) :
  truthy (TaskApp.account snap) = true ->
  getMyTask c = Throw e ->
  let t := trace (TaskApp.loadTasks snap (Some c)) in
  In (TaskApp.Call CallGetMyTask) t /\
  Observe.errorToasts t
  = [lit "Error loading tasks: " ++ orElse (reason e) (message e)] /\
  (forall l, ~ In (TaskApp.SetTasks l) t) /\
  TaskApp.tasks (TaskApp.run s t) = TaskApp.tasks s /\
  TaskApp.account (TaskApp.run s t) = TaskApp.account s /\
  TaskApp.contract (TaskApp.run s t) = TaskApp.contract s /\
  TaskApp.loading (TaskApp.run s t) = false.
Proof.
  intros Ha Hg t. subst t.
  rewrite (loadTasks_rejected snap c e Ha Hg).
  split; [simpl; auto|]. split; [reflexivity|].
  split; [intros l H; in_trace H|].
  repeat split.
Qed.

Lemma loadTasks_failure_keeps_list_and_session_witness :
  truthy (TaskApp.account
            (Sample.connected (Sample.failingLedger Sample.gasError)
                              Sample.emptyDraft)) = true /\
  getMyTask (Sample.failingLedger Sample.gasError) = Throw Sample.gasError /\
  TaskApp.tasks
    (TaskApp.run
       (Sample.connected (Sample.failingLedger Sample.gasError)
                         Sample.emptyDraft)
       (trace (TaskApp.loadTasks
                 (Sample.connected (Sample.failingLedger Sample.gasError)
                                   Sample.emptyDraft)
                 (Some (Sample.failingLedger Sample.gasError)))))
  = [Sample.task3; Sample.task1].
Proof.
  split; [reflexivity|]. split; [reflexivity|].
  exact (proj1 (proj2 (proj2 (proj2
    (loadTasks_failure_keeps_list_and_session
       (Sample.connected (Sample.failingLedger Sample.gasError)
                         Sample.emptyDraft)
       (Sample.connected (Sample.failingLedger Sample.gasError)
                         Sample.emptyDraft)
       (Sample.failingLedger Sample.gasError) Sample.gasError
       eq_refl eq_refl))))).
Defined.

(** ** The two load operations *)
Section TwoLoads.


End TwoLoads.




(** * Further properties of the handlers *)

(** ** Runs of async functions *)
Section EffFacts.
Context {Act : Type}.

Lemma trace_finally_emit {A} (m : M Act A) (a : Act) :
  trace (finally m (emit a)) = trace m ++ [a].
Proof. destruct m as [t r]. reflexivity. Qed.

Lemma result_finally_emit {A} (m : M Act A) (a : Act) :
  result (finally m (emit a)) = result m.
Proof. destruct m as [t r]. reflexivity. Qed.

(** A catch block that cannot throw leaves nothing to throw. *)
Lemma result_try_catch (m : M Act unit) (h : JsError -> M Act unit) :
  (forall e, result (h e) = Ok tt) -> result (try_catch m h) = Ok tt.
Proof.
  intros Hh. destruct m as [t [[]|e]]; simpl; [reflexivity|].
  specialize (Hh e). destruct (h e) as [t' r]. exact Hh.
Qed.

End EffFacts.

Section RunFacts.
Import TaskApp Observe.

Lemma run_app (s : State) (t1 t2 : list Action) :
  run s (t1 ++ t2) = run (run s t1) t2.
Proof. apply fold_left_app. Qed.

Lemma loading_run (s : State) (t : list Action) :
  loading (run s t) = finalLoading (loading s) t.
Proof.
  revert s; induction t as [|a t IH]; intros s; [reflexivity|].
  simpl. rewrite IH. destruct a; reflexivity.
Qed.

Lemma finalLoading_app (b : bool) (t1 t2 : list Action) :
  finalLoading b (t1 ++ t2) = finalLoading (finalLoading b t1) t2.
Proof.
  revert b; induction t1 as [|a t1 IH]; intros b; [reflexivity|].
  destruct a; simpl; apply IH.
Qed.

(** [loadTasks] catches what its fetch throws. *)
Lemma loadTasks_result (snap : State) (taskContract : option Contract) :
  result (loadTasks snap taskContract) = Ok tt.
Proof.
  unfold loadTasks.
  destruct (truthy (account snap)); [|reflexivity].
  destruct taskContract as [c|]; [|reflexivity].
  rewrite result_finally_emit. apply result_try_catch. reflexivity.
Qed.

(** [loadTasks] sets nothing but the loading flag and the task list. *)
Lemma loadTasks_frame (snap s : State) (taskContract : option Contract) :
  account (run s (trace (loadTasks snap taskContract))) = account s /\
  contract (run s (trace (loadTasks snap taskContract))) = contract s /\
  newTask (run s (trace (loadTasks snap taskContract))) = newTask s /\
  isInitialized (run s (trace (loadTasks snap taskContract)))
  = isInitialized s.
Proof.
  unfold loadTasks, await.
  destruct (truthy (account snap)); [|repeat split].
  destruct taskContract as [c|]; [|repeat split].
  destruct (getMyTask c); repeat split.
Qed.

(** From a render without account [loadTasks] only warns. *)
Lemma loadTasks_no_account (snap : State) (taskContract : option Contract) :
  truthy (account snap) = false ->
  loadTasks snap taskContract
  = ([Console CWarn (lit "Cannot load tasks: wallet not connected")], Ok tt).
Proof. intros Ha. unfold loadTasks. rewrite Ha. reflexivity. Qed.

(** The run of [connectWallet] with a wallet that lets it through. *)
Lemma connectWallet_ready
    (snap : State) (provider : Ethereum) (accounts : list jsstring) :
  walletReady provider accounts ->
  connectWallet snap (Some provider)
  = ([SetLoading true; Call CallGetNetwork; Call CallRequestAccounts;
      Call (CallGetCode contractAddress);
      SetAccount (first accounts);
      SetContract (Some (newContract provider contractAddress))]
     ++ trace (loadTasks snap (Some (newContract provider contractAddress)))
     ++ [Toast Success (lit "Wallet connected successfully!");
         SetLoading false], Ok tt).
Proof.
  intros ((network & Hn & Hid) & Hr & (code & Hc & Hne)).
  pose proof (loadTasks_result snap
                (Some (newContract provider contractAddress))) as Hres.
  unfold connectWallet, checkNetwork, await.
  rewrite Hn, Hr, Hc. simpl. rewrite Hid. simpl.
  assert (E : JS.eqb code (lit "0x") = false).
  { destruct (JS.eqb code (lit "0x")) eqn:E; [|reflexivity].
    apply eqb_eq in E. contradiction. }
  rewrite E. simpl.
  destruct (loadTasks snap (Some (newContract provider contractAddress)))
    as [tl rl].
  simpl in Hres. subst rl. simpl. rewrite <- app_assoc. reflexivity.
Qed.

End RunFacts.

(** X1. With a wallet on the expected chain that hands out accounts and
    reports code at the contract address, [connectWallet] stores the first
    account and the contract handle, announces success once and ends with
    loading clear.  The load inside it reads the account of the render the
    handler was created in: started from a render that had no account yet,
    it fetches nothing and the task list stays as it was. *)
Theorem connectWallet_establishes_session
    (snap s : TaskApp.State) (provider : Ethereum) (accounts : list jsstring) :
  Observe.walletReady provider accounts ->
  let t := trace (TaskApp.connectWallet snap (Some provider)) in
  TaskApp.account (TaskApp.run s t) = first accounts /\
  TaskApp.contract (TaskApp.run s t)
  = Some (newContract provider contractAddress) /\
  Observe.successToasts t = [lit "Wallet connected successfully!"] /\
  TaskApp.loading (TaskApp.run s t) = false /\
  (truthy (TaskApp.account snap) = false ->
   Observe.fetches t = 0%nat /\
   TaskApp.tasks (TaskApp.run s t) = TaskApp.tasks s).
Proof.
  intros Hw t. subst t.
  rewrite (connectWallet_ready snap provider accounts Hw).
  unfold trace at 1 3 5 7 9 11. simpl fst.
  destruct (truthy (TaskApp.account snap)) eqn:Ha.
  - unfold TaskApp.loadTasks, TaskApp.await. rewrite Ha.
    destruct (getMyTask (newContract provider contractAddress));
      (repeat split; try reflexivity; discriminate).
  - rewrite (loadTasks_no_account snap _ Ha). repeat split.
Qed.

Lemma connectWallet_establishes_session_witness :
  Observe.walletReady Sample.mainnet [lit "0xAAA"; lit "0xBBB"] /\
  TaskApp.account
    (TaskApp.run TaskApp.initial
       (trace (TaskApp.connectWallet TaskApp.initial (Some Sample.mainnet))))
  = Some (lit "0xAAA").
Proof.
  assert (H : Observe.walletReady Sample.mainnet [lit "0xAAA"; lit "0xBBB"]).
  { split; [exists (mkNetwork 1); split; reflexivity|].
    split; [reflexivity|].
    exists (lit "0x6080"). split; [reflexivity | discriminate]. }
  split; [exact H|].
  exact (proj1 (connectWallet_establishes_session
                  TaskApp.initial TaskApp.initial Sample.mainnet _ H)).
Defined.

(** X2. [connectWallet] is all or nothing.  If its run stores an account,
    stores a contract handle or announces success, then a wallet was
    present, on the expected chain, handed out accounts and reported code
    at the contract address; on every other run none of the three
    happens. *)
Theorem connectWallet_session_only_when_ready
    (snap : TaskApp.State) (ethereum : option Ethereum) :
  let t := trace (TaskApp.connectWallet snap ethereum) in
  (exists a, In (TaskApp.SetAccount a) t) \/
  (exists c, In (TaskApp.SetContract c) t) \/
  Observe.successToasts t <> [] ->
  exists provider accounts,
    ethereum = Some provider /\ Observe.walletReady provider accounts.
Proof.
  intros t H. subst t.
  assert (Hno : forall t',
             TaskApp.connectWallet snap ethereum = (t', Ok tt) ->
             (forall a, ~ In (TaskApp.SetAccount a) t') ->
             (forall c, ~ In (TaskApp.SetContract c) t') ->
             Observe.successToasts t' = [] -> False).
  { intros t' E Ha Hc Hs. rewrite E in H. simpl in H.
    destruct H as [[a H]|[[c H]|H]];
      [exact (Ha a H) | exact (Hc c H) | exact (H Hs)]. }
  destruct ethereum as [provider|].
  2:{ exfalso. eapply Hno; [reflexivity| | |reflexivity];
        intros x Hx; in_trace Hx. }
  unfold TaskApp.connectWallet, TaskApp.checkNetwork, TaskApp.await in Hno.
  destruct (getNetwork provider) as [network|e] eqn:Hn; simpl in Hno.
  2:{ exfalso. eapply Hno; [reflexivity| | |reflexivity];
        intros x Hx; in_trace Hx. }
  destruct (chainId network =? TaskApp.expectedNetwork) eqn:Hid;
    simpl in Hno.
  2:{ exfalso. eapply Hno; [reflexivity| | |reflexivity];
        intros x Hx; in_trace Hx. }
  destruct (requestAccounts provider) as [accounts|e] eqn:Hr; simpl in Hno.
  2:{ exfalso. eapply Hno; [reflexivity| | |reflexivity];
        intros x Hx; in_trace Hx. }
  destruct (getCode provider contractAddress) as [code|e] eqn:Hc;
    simpl in Hno.
  2:{ exfalso. eapply Hno; [reflexivity| | |reflexivity];
        intros x Hx; in_trace Hx. }
  destruct (JS.eqb code (lit "0x")) eqn:Hx; simpl in Hno.
  { exfalso. eapply Hno; [reflexivity| | |reflexivity];
      intros x Hx'; in_trace Hx'. }
  exists provider, accounts. split; [reflexivity|].
  clear Hno H.
  split; [exists network; split; [exact Hn | now apply Z.eqb_eq]|].
  split; [exact Hr|].
  exists code. split; [exact Hc|].
  intros E. apply eqb_eq in E. congruence.
Qed.

Lemma connectWallet_session_only_when_ready_witness :
  In (TaskApp.SetAccount (Some (lit "0xAAA")))
     (trace (TaskApp.connectWallet TaskApp.initial (Some Sample.mainnet))) /\
  exists provider accounts,
    Some Sample.mainnet = Some provider /\
    Observe.walletReady provider accounts.
Proof.
  assert (H : In (TaskApp.SetAccount (Some (lit "0xAAA")))
                (trace (TaskApp.connectWallet TaskApp.initial
                          (Some Sample.mainnet)))).
  { vm_compute. auto 10. }
  split; [exact H|].
  exact (connectWallet_session_only_when_ready TaskApp.initial
           (Some Sample.mainnet)
           (or_introl (ex_intro _ (Some (lit "0xAAA")) H))).
Defined.

(** X3. When the chain of the wallet cannot be read, [connectWallet] stops
    without a word to the user: no error toast, no success toast, only the
    console line; nothing but the loading flag, cleared, is set. *)
Theorem connectWallet_unreadable_network_is_silent
    (snap s : TaskApp.State) (provider : Ethereum) (e : JsError) :
  getNetwork provider = Throw e ->
  let t := trace (TaskApp.connectWallet snap (Some provider)) in
  Observe.errorToasts t = [] /\
  Observe.successToasts t = [] /\
  ~ In (TaskApp.Call CallRequestAccounts) t /\
  TaskApp.run s t = Observe.withLoading false s.
Proof.
  intros Hn t. subst t.
  unfold TaskApp.connectWallet, TaskApp.checkNetwork, TaskApp.await.
  rewrite Hn. simpl. repeat split. intros H. in_trace H.
Qed.

Lemma connectWallet_unreadable_network_is_silent_witness :
  getNetwork Sample.offline = Throw Sample.gasError /\
  Observe.errorToasts
    (trace (TaskApp.connectWallet TaskApp.initial (Some Sample.offline)))
  = [].
Proof.
  split; [reflexivity|].
  exact (proj1 (connectWallet_unreadable_network_is_silent
                  TaskApp.initial TaskApp.initial Sample.offline
                  Sample.gasError eq_refl)).
Defined.

(** X4. On the expected chain, when the wallet turns the account request
    down or the code probe fails, [connectWallet] raises one error toast
    with the message of the error, or "Failed to connect wallet" when that
    message is empty, and account, contract and tasks are what they
    were. *)
Theorem connectWallet_rejection_reports_message
    (snap s : TaskApp.State) (provider : Ethereum) (network : Network)
    (e : JsError) :
  getNetwork provider = Ok network ->
  chainId network = TaskApp.expectedNetwork ->
  requestAccounts provider = Throw e \/
  (exists accounts, requestAccounts provider = Ok accounts /\
                    getCode provider contractAddress = Throw e) ->
  let t := trace (TaskApp.connectWallet snap (Some provider)) in
  Observe.errorToasts t
  = [if nonEmpty (message e) then message e
     else lit "Failed to connect wallet"] /\
  TaskApp.run s t = Observe.withLoading false s.
Proof.
  intros Hn Hid Hrej t. subst t.
  unfold TaskApp.connectWallet, TaskApp.checkNetwork, TaskApp.await.
  rewrite Hn. simpl. rewrite Hid. simpl.
  destruct Hrej as [Hr|(accounts & Hr & Hc)]; rewrite Hr; simpl.
  - unfold orElse. simpl. destruct (nonEmpty (message e)); split; reflexivity.
  - rewrite Hc. simpl. unfold orElse. simpl.
    destruct (nonEmpty (message e)); split; reflexivity.
Qed.

Lemma connectWallet_rejection_reports_message_witness :
  getNetwork Sample.refusing = Ok (mkNetwork 1) /\
  chainId (mkNetwork 1) = TaskApp.expectedNetwork /\
  Observe.errorToasts
    (trace (TaskApp.connectWallet TaskApp.initial (Some Sample.refusing)))
  = [lit "User rejected the request."].
Proof.
  split; [reflexivity|]. split; [reflexivity|].
  exact (proj1 (connectWallet_rejection_reports_message
                  TaskApp.initial TaskApp.initial Sample.refusing
                  (mkNetwork 1) (mkError (lit "User rejected the request.") None)
                  eq_refl eq_refl (or_introl eq_refl))).
Defined.

(** X5. On the expected chain, with accounts handed out, when the contract
    address holds no code (the probe answers "0x"), [connectWallet] raises
    the not-deployed error and stores neither the account it was given nor
    a contract handle. *)
Theorem connectWallet_contract_not_deployed
    (snap s : TaskApp.State) (provider : Ethereum) (network : Network)
    (accounts : list jsstring) :
  getNetwork provider = Ok network ->
  chainId network = TaskApp.expectedNetwork ->
  requestAccounts provider = Ok accounts ->
  getCode provider contractAddress = Ok (lit "0x") ->
  let t := trace (TaskApp.connectWallet snap (Some provider)) in
  Observe.errorToasts t = [lit "Contract not deployed at specified address"] /\
  In (TaskApp.Call CallRequestAccounts) t /\
  TaskApp.run s t = Observe.withLoading false s.
Proof.
  intros Hn Hid Hr Hc t. subst t.
  unfold TaskApp.connectWallet, TaskApp.checkNetwork, TaskApp.await.
  rewrite Hn. simpl. rewrite Hid. simpl. rewrite Hr. simpl. rewrite Hc.
  simpl. repeat split. auto.
Qed.

Lemma connectWallet_contract_not_deployed_witness :
  getNetwork Sample.emptyAddress = Ok (mkNetwork 1) /\
  getCode Sample.emptyAddress contractAddress = Ok (lit "0x") /\
  TaskApp.run TaskApp.initial
    (trace (TaskApp.connectWallet TaskApp.initial (Some Sample.emptyAddress)))
  = Observe.withLoading false TaskApp.initial.
Proof.
  split; [reflexivity|]. split; [reflexivity|].
  exact (proj2 (proj2 (connectWallet_contract_not_deployed
                  TaskApp.initial TaskApp.initial Sample.emptyAddress
                  (mkNetwork 1) [lit "0xAAA"]
                  eq_refl eq_refl eq_refl eq_refl))).
Defined.

(** ** Errors stay inside the handlers *)
Section Contained.
Import TaskApp Observe.

Lemma connectWallet_result (snap : State) (ethereum : option Ethereum) :
  result (connectWallet snap ethereum) = Ok tt.
Proof.
  unfold connectWallet. rewrite result_finally_emit.
  apply result_try_catch. reflexivity.
Qed.

Lemma addTask_result (snap : State) : result (addTask snap) = Ok tt.
Proof.
  unfold addTask.
  destruct (truthy (account snap)); simpl; [|reflexivity].
  destruct (validateTaskInput_cases snap) as [[_ (msg & _ & ->)]|[_ ->]];
    simpl; [reflexivity|].
  match goal with
  | |- context [finally ?x ?f] =>
      assert (E : result (finally x f) = Ok tt)
        by (rewrite result_finally_emit; apply result_try_catch; reflexivity);
      destruct (finally x f) as [t' r]; simpl in E; subst r; reflexivity
  end.
Qed.

Lemma deleteTask_result (snap : State) (taskId : Z) :
  result (deleteTask snap taskId) = Ok tt.
Proof.
  unfold deleteTask.
  destruct (truthy (account snap)); simpl; [|reflexivity].
  rewrite result_finally_emit. apply result_try_catch.
  intros e. simpl. destruct (includes (message e) (lit "owner")); reflexivity.
Qed.

Lemma handleAccountChange_result (snap : State) (accounts : list jsstring) :
  result (handleAccountChange snap accounts) = Ok tt.
Proof.
  unfold handleAccountChange.
  destruct (List.length accounts =? 0)%nat; [reflexivity|]. simpl.
  destruct (contract snap) as [c|]; [|reflexivity].
  pose proof (loadTasks_result snap (Some c)) as E.
  destruct (loadTasks snap (Some c)) as [t r]. simpl in E. now subst r.
Qed.

End Contained.

(** X6. No handler of the component rejects: whatever the wallet and the
    contract answer or throw (an error with a message, as the library and
    the wallet throw them), [connectWallet], [loadTasks], [addTask],
    [deleteTask] and [handleAccountChange] catch it and complete. *)
Theorem handlers_never_reject
    (snap : TaskApp.State) (ethereum : option Ethereum)
    (taskContract : option Contract) (taskId : Z)
    (accounts : list jsstring) :
  result (TaskApp.connectWallet snap ethereum) = Ok tt /\
  result (TaskApp.loadTasks snap taskContract) = Ok tt /\
  result (TaskApp.addTask snap) = Ok tt /\
  result (TaskApp.deleteTask snap taskId) = Ok tt /\
  result (TaskApp.handleAccountChange snap accounts) = Ok tt.
Proof.
  split; [apply connectWallet_result|].
  split; [apply loadTasks_result|].
  split; [apply addTask_result|].
  split; [apply deleteTask_result | apply handleAccountChange_result].
Qed.

(** X7. With a wallet present, [init] is the run of [connectWallet]
    followed by [setIsInitialized(true)]: the component ends initialized
    whether or not the connection succeeded, and the catch block of [init]
    with its "Failed to initialize the application" never runs.  Without a
    wallet it asks to install one, makes no call and leaves the state as it
    is. *)
Theorem init_marks_initialized_whatever_happens
    (snap s : TaskApp.State) (provider : Ethereum) :
  TaskApp.init snap (Some provider)
  = (trace (TaskApp.connectWallet snap (Some provider))
     ++ [TaskApp.SetIsInitialized true], Ok tt) /\
  TaskApp.isInitialized
    (TaskApp.run s (trace (TaskApp.init snap (Some provider)))) = true /\
  TaskApp.init snap None
  = ([TaskApp.Toast Error (lit "Please install MetaMask!")], Ok tt).
Proof.
  assert (E : TaskApp.init snap (Some provider)
              = (trace (TaskApp.connectWallet snap (Some provider))
                 ++ [TaskApp.SetIsInitialized true], Ok tt)).
  { unfold TaskApp.init.
    pose proof (connectWallet_result snap (Some provider)) as R.
    destruct (TaskApp.connectWallet snap (Some provider)) as [t r].
    simpl in R. subst r. reflexivity. }
  split; [exact E|]. split; [|reflexivity].
  rewrite E. unfold trace at 1. simpl fst.
  rewrite run_app. reflexivity.
Qed.

Example init_on_wrong_network :
  TaskApp.run TaskApp.initial
    (trace (TaskApp.init TaskApp.initial (Some Sample.goerli)))
  = TaskApp.mkState (Some []) None [] (TaskApp.mkDraft [] []) false true.
Proof. reflexivity. Qed.

(** ** The loading flag *)
Section Loading.
Import TaskApp Observe.

Lemma finalLoading_finally (b : bool) (m : M Action unit) :
  finalLoading b (trace (finally m (emit (SetLoading false)))) = false.
Proof. rewrite trace_finally_emit, finalLoading_app. reflexivity. Qed.

Lemma loadTasks_finalLoading (snap : State) (tc : option Contract) :
  finalLoading false (trace (loadTasks snap tc)) = false.
Proof.
  unfold loadTasks.
  destruct (truthy (account snap)); [|reflexivity].
  destruct tc as [c|]; [|reflexivity].
  apply finalLoading_finally.
Qed.

Lemma addTask_finalLoading (snap : State) :
  finalLoading false (trace (addTask snap)) = false.
Proof.
  unfold addTask.
  destruct (truthy (account snap)); simpl; [|reflexivity].
  destruct (validateTaskInput_cases snap) as [[_ (msg & _ & ->)]|[_ ->]];
    simpl; [reflexivity|].
  match goal with
  | |- context [finally ?x ?f] =>
      pose proof (finalLoading_finally false x) as E;
      destruct (finally x f) as [t' r]; exact E
  end.
Qed.

Lemma deleteTask_finalLoading (snap : State) (taskId : Z) :
  finalLoading false (trace (deleteTask snap taskId)) = false.
Proof.
  unfold deleteTask.
  destruct (truthy (account snap)); simpl; [|reflexivity].
  apply finalLoading_finally.
Qed.

Lemma handleAccountChange_finalLoading
    (snap : State) (accounts : list jsstring) :
  finalLoading false (trace (handleAccountChange snap accounts)) = false.
Proof.
  unfold handleAccountChange.
  destruct (List.length accounts =? 0)%nat; [reflexivity|]. simpl.
  destruct (contract snap) as [c|]; [|reflexivity].
  pose proof (loadTasks_finalLoading snap (Some c)) as E.
  destruct (loadTasks snap (Some c)) as [t r]. exact E.
Qed.

End Loading.

(** X8. No handler leaves the loading flag set.  Started with the flag
    clear, every run of [connectWallet], [loadTasks], [addTask],
    [deleteTask] and [handleAccountChange] ends with it clear, on the
    rejected and the early-return paths as on the others. *)
Theorem handlers_leave_loading_clear
    (snap s : TaskApp.State) (ethereum : option Ethereum)
    (taskContract : option Contract) (taskId : Z)
    (accounts : list jsstring) :
  TaskApp.loading s = false ->
  TaskApp.loading
    (TaskApp.run s (trace (TaskApp.connectWallet snap ethereum))) = false /\
  TaskApp.loading
    (TaskApp.run s (trace (TaskApp.loadTasks snap taskContract))) = false /\
  TaskApp.loading (TaskApp.run s (trace (TaskApp.addTask snap))) = false /\
  TaskApp.loading
    (TaskApp.run s (trace (TaskApp.deleteTask snap taskId))) = false /\
  TaskApp.loading
    (TaskApp.run s (trace (TaskApp.handleAccountChange snap accounts)))
  = false.
Proof.
  intros Hs. rewrite !loading_run, Hs.
  split; [apply finalLoading_finally|].
  split; [apply loadTasks_finalLoading|].
  split; [apply addTask_finalLoading|].
  split; [apply deleteTask_finalLoading|].
  apply handleAccountChange_finalLoading.
Qed.

Lemma handlers_leave_loading_clear_witness :
  TaskApp.loading Sample.goodRender = false /\
  TaskApp.loading
    (TaskApp.run Sample.goodRender
       (trace (TaskApp.deleteTask Sample.goodRender 3))) = false.
Proof.
  split; [reflexivity|].
  exact (proj1 (proj2 (proj2 (proj2
    (handlers_leave_loading_clear Sample.goodRender Sample.goodRender
       None None 3 [] eq_refl))))).
Defined.

(** ** Switching the account *)

(** X9. On an account change that carries accounts, the first one becomes
    the account.  The task list is fetched again only through the contract
    handle and the account of the render the handler was created in: with
    both present and the fetch answering with ids of magnitude at most
    2^53, once, and the list becomes the tasks not deleted, highest id
    first; with either missing, no call is made and the list on the page
    stays as it was. *)
Theorem handleAccountChange_switches_account
    (snap s : TaskApp.State) (accounts : list jsstring) :
  accounts <> [] ->
  let t := trace (TaskApp.handleAccountChange snap accounts) in
  TaskApp.account (TaskApp.run s t) = first accounts /\
  TaskApp.contract (TaskApp.run s t) = TaskApp.contract s /\
  (forall c allTasks,
     TaskApp.contract snap = Some c ->
     truthy (TaskApp.account snap) = true ->
     getMyTask c = Ok allTasks ->
     Observe.safeIds allTasks ->
     Observe.fetches t = 1%nat /\
     Observe.liveDescending allTasks (TaskApp.tasks (TaskApp.run s t))) /\
  (TaskApp.contract snap = None \/ truthy (TaskApp.account snap) = false ->
   Observe.noNetwork t /\ TaskApp.tasks (TaskApp.run s t) = TaskApp.tasks s).
Proof.
  intros Hne t. subst t.
  destruct accounts as [|a rest]; [contradiction|].
  unfold TaskApp.handleAccountChange. cbn [List.length Nat.eqb first].
  split; [|split; [|split]].
  - destruct (TaskApp.contract snap) as [c|]; [|reflexivity].
    pose proof (loadTasks_frame snap
                  (TaskApp.apply s (TaskApp.SetAccount (Some a))) (Some c))
      as (Ha & _).
    destruct (TaskApp.loadTasks snap (Some c)) as [tl rl]. exact Ha.
  - destruct (TaskApp.contract snap) as [c|]; [|reflexivity].
    pose proof (loadTasks_frame snap
                  (TaskApp.apply s (TaskApp.SetAccount (Some a))) (Some c))
      as (_ & Hc & _).
    destruct (TaskApp.loadTasks snap (Some c)) as [tl rl]. exact Hc.
  - intros c allTasks Hc Ha Hg Hs. rewrite Hc.
    rewrite (loadTasks_fetched snap c allTasks Ha Hg).
    split; [reflexivity|]. exact (sort_liveDescending allTasks Hs).
  - intros [Hc|Ha].
    + rewrite Hc. split; [|reflexivity]. intros x H. in_trace H.
    + destruct (TaskApp.contract snap) as [c|].
      * rewrite (loadTasks_no_account snap _ Ha).
        split; [|reflexivity]. intros x H. in_trace H.
      * split; [|reflexivity]. intros x H. in_trace H.
Qed.

Lemma handleAccountChange_switches_account_witness :
  [lit "0xBBB"] <> [] /\
  TaskApp.account
    (TaskApp.run Sample.goodRender
       (trace (TaskApp.handleAccountChange Sample.goodRender [lit "0xBBB"])))
  = Some (lit "0xBBB").
Proof.
  assert (H : [lit "0xBBB"] <> []) by discriminate.
  split; [exact H|].
  exact (proj1 (handleAccountChange_switches_account
                  Sample.goodRender Sample.goodRender [lit "0xBBB"] H)).
Defined.

(** ** A confirmed addition *)
Section Confirmed.
Import TaskApp Observe.

Lemma findEvent_some (name : string) (receipt : Receipt) :
  hasEvent name receipt ->
  exists e, findEvent (eventNamed name) receipt = Some e.
Proof.
  intros H. destruct (findEvent (eventNamed name) receipt) as [e|] eqn:E.
  - now exists e.
  - apply findEvent_none in E. contradiction.
Qed.

Lemma findEvent_hasEvent (name : string) (receipt : Receipt) (e : Event) :
  findEvent (eventNamed name) receipt = Some e -> hasEvent name receipt.
Proof.
  intros E. unfold findEvent, JS.find in E.
  destruct (events receipt) as [evs|] eqn:Hev; [|discriminate].
  apply find_some in E as [Hin He].
  exists evs, e. split; [exact Hev|]. split; [exact Hin|].
  unfold eventNamed in He. destruct (event e) as [n|]; [|discriminate].
  apply eqb_eq in He. now subst.
Qed.

End Confirmed.

(** X10. When the add transaction is submitted and confirms with an
    AddTask event in its receipt, [addTask] announces success once, resets
    the draft to empty title and text, and fetches the task list exactly
    once: if the fetch answers with ids of magnitude at most 2^53, the
    list becomes the tasks not deleted, highest id first; if it is
    rejected, the list stays. *)
Theorem addTask_confirmed_clears_draft_and_reloads
    (snap s : TaskApp.State) (c : Contract) (tx : Tx) (receipt : Receipt) :
  let d := TaskApp.newTask snap in
  truthy (TaskApp.account snap) = true ->
  Observe.validDraft d ->
  TaskApp.contract snap = Some c ->
  Ledger.addTask c (trim (TaskApp.text d)) (trim (TaskApp.title d))
                 false (Some 200000) = Ok tx ->
  wait tx = Ok receipt ->
  Observe.hasEvent "AddTask" receipt ->
  let t := trace (TaskApp.addTask snap) in
  Observe.successToasts t = [lit "Task added successfully!"] /\
  TaskApp.newTask (TaskApp.run s t) = TaskApp.mkDraft [] [] /\
  Observe.fetches t = 1%nat /\
  (forall allTasks, getMyTask c = Ok allTasks ->
     Observe.safeIds allTasks ->
     Observe.liveDescending allTasks (TaskApp.tasks (TaskApp.run s t))) /\
  (forall e, getMyTask c = Throw e ->
     TaskApp.tasks (TaskApp.run s t) = TaskApp.tasks s).
Proof.
  intros d Ha Hv Hc Htx Hw He t. subst t d.
  destruct (findEvent_some _ _ He) as [ev Hev].
  unfold TaskApp.addTask, TaskApp.loadTasks, TaskApp.await.
  rewrite Ha. simpl.
  destruct (validateTaskInput_cases snap) as [[Hn _]|[_ ->]];
    [contradiction|].
  simpl. rewrite Hc. simpl. rewrite Htx. simpl. rewrite Hw. simpl.
  rewrite Hev. simpl.
  destruct (getMyTask c) as [l|e0]; simpl;
    (split; [reflexivity|]); (split; [reflexivity|]); (split; [reflexivity|]);
    split.
  - intros allTasks E Hs. inversion E; subst.
    exact (sort_liveDescending allTasks Hs).
  - intros e E. discriminate.
  - intros allTasks E. discriminate.
  - intros e E. reflexivity.
Qed.

Lemma addTask_confirmed_clears_draft_and_reloads_witness :
  truthy (TaskApp.account Sample.goodRender) = true /\
  TaskApp.contract Sample.goodRender = Some Sample.ledger /\
  Observe.hasEvent "AddTask" Sample.addReceipt /\
  TaskApp.newTask
    (TaskApp.run Sample.goodRender (trace (TaskApp.addTask Sample.goodRender)))
  = TaskApp.mkDraft [] [].
Proof.
  assert (He : Observe.hasEvent "AddTask" Sample.addReceipt).
  { exists [mkEvent None; mkEvent (Some (lit "AddTask"))],
           (mkEvent (Some (lit "AddTask"))).
    repeat split. simpl. auto. }
  split; [reflexivity|]. split; [reflexivity|]. split; [exact He|].
  refine (proj1 (proj2
    (addTask_confirmed_clears_draft_and_reloads
       Sample.goodRender Sample.goodRender Sample.ledger
       (mkTx (Ok Sample.addReceipt)) Sample.addReceipt
       eq_refl _ eq_refl eq_refl eq_refl He))).
  unfold Observe.validDraft. repeat split; simpl; try discriminate; lia.
Defined.

(** X11. [addTask] resets the draft, announces success or fetches the task
    list only after a confirmed addition: if any of the three happens in a
    run, then the render had an account and a contract handle, the draft
    was valid, the transaction was submitted and confirmed, and its receipt
    lists an AddTask event. *)
Theorem addTask_acts_only_after_confirmation (snap : TaskApp.State) :
  let d := TaskApp.newTask snap in
  let t := trace (TaskApp.addTask snap) in
  (exists d', In (TaskApp.SetNewTask d') t) \/
  Observe.fetches t <> 0%nat \/
  Observe.successToasts t <> [] ->
  exists c tx receipt,
    truthy (TaskApp.account snap) = true /\
    Observe.validDraft d /\
    TaskApp.contract snap = Some c /\
    Ledger.addTask c (trim (TaskApp.text d)) (trim (TaskApp.title d))
                   false (Some 200000) = Ok tx /\
    wait tx = Ok receipt /\
    Observe.hasEvent "AddTask" receipt.
Proof.
  intros d t H. subst t d.
  assert (Hno : forall t',
             TaskApp.addTask snap = (t', Ok tt) ->
             (forall d', ~ In (TaskApp.SetNewTask d') t') ->
             Observe.fetches t' = 0%nat ->
             Observe.successToasts t' = [] -> False).
  { intros t' E Hd Hf Hs. rewrite E in H. simpl in H.
    destruct H as [[d' H]|[H|H]];
      [exact (Hd d' H) | exact (H Hf) | exact (H Hs)]. }
  clear H. unfold TaskApp.addTask, TaskApp.await in Hno.
  destruct (truthy (TaskApp.account snap)) eqn:Ha; simpl in Hno.
  2:{ exfalso. eapply Hno; [reflexivity| |reflexivity|reflexivity].
      intros x Hx; in_trace Hx. }
  destruct (validateTaskInput_cases snap) as [[_ (msg & _ & E)]|[Hv E]];
    rewrite E in Hno; simpl in Hno.
  { exfalso. eapply Hno; [reflexivity| |reflexivity|reflexivity].
    intros x Hx; in_trace Hx. }
  destruct (TaskApp.contract snap) as [c|] eqn:Hc; simpl in Hno.
  2:{ exfalso. eapply Hno; [reflexivity| |reflexivity|reflexivity].
      intros x Hx; in_trace Hx. }
  destruct (Ledger.addTask c _ _ false (Some 200000)) as [tx|e] eqn:Htx;
    simpl in Hno.
  2:{ exfalso. eapply Hno; [reflexivity| |reflexivity|reflexivity].
      intros x Hx; in_trace Hx. }
  destruct (wait tx) as [receipt|e] eqn:Hw; simpl in Hno.
  2:{ exfalso. eapply Hno; [reflexivity| |reflexivity|reflexivity].
      intros x Hx; in_trace Hx. }
  destruct (findEvent (eventNamed "AddTask") receipt) as [ev|] eqn:Hev;
    simpl in Hno.
  2:{ exfalso. eapply Hno; [reflexivity| |reflexivity|reflexivity].
      intros x Hx; in_trace Hx. }
  clear Hno. exists c, tx, receipt.
  repeat split; try assumption; try reflexivity.
  - apply Hv.
  - apply Hv.
  - apply Hv.
  - apply Hv.
  - exact (findEvent_hasEvent _ _ _ Hev).
Qed.

Lemma addTask_acts_only_after_confirmation_witness :
  Observe.fetches (trace (TaskApp.addTask Sample.goodRender)) <> 0%nat /\
  exists c tx receipt,
    truthy (TaskApp.account Sample.goodRender) = true /\
    Observe.validDraft (TaskApp.newTask Sample.goodRender) /\
    TaskApp.contract Sample.goodRender = Some c /\
    Ledger.addTask c (trim (TaskApp.text (TaskApp.newTask Sample.goodRender)))
                   (trim (TaskApp.title (TaskApp.newTask Sample.goodRender)))
                   false (Some 200000) = Ok tx /\
    wait tx = Ok receipt /\
    Observe.hasEvent "AddTask" receipt.
Proof.
  assert (H : Observe.fetches (trace (TaskApp.addTask Sample.goodRender))
              <> 0%nat) by (vm_compute; discriminate).
  split; [exact H|].
  exact (addTask_acts_only_after_confirmation Sample.goodRender
           (or_intror (or_introl H))).
Defined.

(** A call to the contract's addTask shows a connected render, a valid
    draft and a contract handle. *)
Lemma addTask_call_inv (snap : TaskApp.State)
    (text' title' : jsstring) (isDel : bool) (gas : option Z) :
  In (TaskApp.Call (CallAddTask text' title' isDel gas))
     (trace (TaskApp.addTask snap)) ->
  truthy (TaskApp.account snap) = true /\
  Observe.validDraft (TaskApp.newTask snap) /\
  exists c, TaskApp.contract snap = Some c.
Proof.
  unfold TaskApp.addTask, TaskApp.await.
  destruct (truthy (TaskApp.account snap)) eqn:Ha; simpl.
  2:{ intros H; in_trace H. }
  destruct (validateTaskInput_cases snap) as [[_ (msg & _ & ->)]|[Hv ->]];
    simpl.
  { intros H; in_trace H. }
  destruct (TaskApp.contract snap) as [c|]; simpl.
  2:{ intros H; in_trace H. }
  intros _. split; [reflexivity|]. split; [exact Hv|]. now exists c.
Qed.

(** X12. [addTask] submits to the contract exactly when the render has an
    account and a contract handle and the draft is valid: the trimmed title
    and the trimmed text are not empty, the title as typed has at most 100
    code units and the text at most 500.  A title of exactly 100 and a text
    of exactly 500 pass. *)
Theorem addTask_submits_exactly_valid_drafts (snap : TaskApp.State) :
  let t := trace (TaskApp.addTask snap) in
  (exists text' title' isDel gas,
     In (TaskApp.Call (CallAddTask text' title' isDel gas)) t) <->
  truthy (TaskApp.account snap) = true /\
  Observe.validDraft (TaskApp.newTask snap) /\
  TaskApp.contract snap <> None.
Proof.
  intros t. subst t. split.
  - intros (text' & title' & isDel & gas & H).
    destruct (addTask_call_inv snap _ _ _ _ H) as (Ha & Hv & c & Hc).
    repeat split; try assumption; try apply Hv. congruence.
  - intros (Ha & Hv & Hc).
    destruct (TaskApp.contract snap) as [c|] eqn:E; [|contradiction].
    eexists _, _, _, _. exact (addTask_submits_trimmed snap c Ha Hv E).
Qed.

Example addTask_bounds_are_inclusive :
  Observe.validDraft (TaskApp.mkDraft (repeat 97%N 100) (repeat 98%N 500)) /\
  ~ Observe.validDraft (TaskApp.mkDraft (repeat 97%N 101) (repeat 98%N 500)) /\
  ~ Observe.validDraft (TaskApp.mkDraft (repeat 97%N 100) (repeat 98%N 501)).
Proof.
  unfold Observe.validDraft. cbn [TaskApp.title TaskApp.text].
  rewrite !repeat_length.
  repeat split; try lia; vm_compute; discriminate.
Qed.

(** ** What trimming leaves *)
Section TrimFacts.

Lemma trimStart_split (s : jsstring) :
  exists l, s = l ++ trimStart s /\ forallb isWhiteSpace l = true.
Proof.
  induction s as [|c s (l & E & Hl)]; [now exists []|].
  simpl. destruct (isWhiteSpace c) eqn:Hc.
  - exists (c :: l). simpl. rewrite Hc, Hl. split; [congruence|reflexivity].
  - now exists [].
Qed.

Lemma trimStart_head (s : jsstring) (c : N) (r : jsstring) :
  trimStart s = c :: r -> isWhiteSpace c = false.
Proof.
  induction s as [|a s IH]; simpl; [discriminate|].
  destruct (isWhiteSpace a) eqn:Ha; [exact IH|].
  intros E. injection E as -> _. exact Ha.
Qed.

Lemma trimEnd_split (s : jsstring) :
  exists r, s = trimEnd s ++ r /\ forallb isWhiteSpace r = true.
Proof.
  destruct (trimStart_split (rev s)) as (l & E & Hl).
  exists (rev l). split.
  - unfold trimEnd. rewrite <- rev_app_distr, <- E. symmetry.
    apply rev_involutive.
  - apply forallb_forall. intros x Hx. rewrite forallb_forall in Hl.
    apply Hl, in_rev, Hx.
Qed.

Lemma trimEnd_last (s r : jsstring) (c : N) :
  trimEnd s = r ++ [c] -> isWhiteSpace c = false.
Proof.
  unfold trimEnd. intros E.
  apply (f_equal (@rev N)) in E.
  rewrite rev_involutive, rev_app_distr in E. simpl in E.
  exact (trimStart_head _ _ _ E).
Qed.

(** The trimmed string is a piece of the string between white space. *)
Lemma trim_split (s : jsstring) :
  exists l r, s = l ++ trim s ++ r /\
              forallb isWhiteSpace l = true /\
              forallb isWhiteSpace r = true.
Proof.
  destruct (trimStart_split s) as (l & El & Hl).
  destruct (trimEnd_split (trimStart s)) as (r & Er & Hr).
  exists l, r. unfold trim. rewrite <- Er. auto.
Qed.

Lemma trim_length (s : jsstring) :
  (List.length (trim s) <= List.length s)%nat.
Proof.
  destruct (trim_split s) as (l & r & E & _).
  rewrite E at 2. rewrite !length_app. lia.
Qed.

Lemma trim_head (s : jsstring) (c : N) (r : jsstring) :
  trim s = c :: r -> isWhiteSpace c = false.
Proof.
  unfold trim. intros E.
  destruct (trimEnd_split (trimStart s)) as (w & Ew & _).
  rewrite E in Ew. simpl in Ew. exact (trimStart_head _ _ _ Ew).
Qed.

Lemma trim_last (s r : jsstring) (c : N) :
  trim s = r ++ [c] -> isWhiteSpace c = false.
Proof. unfold trim. apply trimEnd_last. Qed.

Lemma forallb_hasInk (s : jsstring) :
  forallb isWhiteSpace s = false <-> Observe.hasInk s.
Proof.
  unfold Observe.hasInk. induction s as [|c s IH]; simpl.
  - split; [discriminate | intros (c & [] & _)].
  - destruct (isWhiteSpace c) eqn:Hc; simpl.
    + rewrite IH. split.
      * intros (x & Hx & Hw). exists x. auto.
      * intros (x & [<-|Hx] & Hw); [congruence | now exists x].
    + split; [|reflexivity]. intros _. exists c. auto.
Qed.

(** Something is left of a string exactly when it has a code unit that is
    not white space. *)
Lemma trim_hasInk (s : jsstring) : trim s <> [] <-> Observe.hasInk s.
Proof.
  rewrite <- forallb_hasInk. split.
  - intros H. destruct (forallb isWhiteSpace s) eqn:E; [|reflexivity].
    exfalso. apply H, trim_blank, E.
  - intros H E. apply trim_nil_blank in E. congruence.
Qed.

End TrimFacts.

(** X13. Whatever [addTask] sends to the contract is within the bounds of
    the form: the title sent is not empty and has at most 100 code units,
    the text sent is not empty and has at most 500, and neither begins nor
    ends with white space; the deleted flag sent is false. *)
Theorem addTask_sends_bounded_trimmed_values
    (snap : TaskApp.State) (text' title' : jsstring)
    (isDel : bool) (gas : option Z) :
  In (TaskApp.Call (CallAddTask text' title' isDel gas))
     (trace (TaskApp.addTask snap)) ->
  (title' <> [] /\ (List.length title' <= 100)%nat) /\
  (text' <> [] /\ (List.length text' <= 500)%nat) /\
  (forall c r, title' = c :: r \/ text' = c :: r ->
               isWhiteSpace c = false) /\
  (forall r c, title' = r ++ [c] \/ text' = r ++ [c] ->
               isWhiteSpace c = false) /\
  isDel = false.
Proof.
  intros H.
  destruct (addTask_call_inv snap _ _ _ _ H) as (_ & (H1 & H2 & H3 & H4) & _).
  destruct (addTask_calls_trimmed snap _ _ _ _ H) as (-> & -> & -> & _).
  pose proof (trim_length (TaskApp.title (TaskApp.newTask snap))).
  pose proof (trim_length (TaskApp.text (TaskApp.newTask snap))).
  split; [split; [exact H1 | lia]|].
  split; [split; [exact H2 | lia]|].
  split; [|split; [|reflexivity]].
  - intros c r [E|E]; exact (trim_head _ _ _ E).
  - intros r c [E|E]; exact (trim_last _ _ _ E).
Qed.

Lemma addTask_sends_bounded_trimmed_values_witness :
  In (TaskApp.Call (CallAddTask (lit "B") (lit "A") false (Some 200000)))
     (trace (TaskApp.addTask Sample.goodRender)) /\
  (List.length (lit "A") <= 100)%nat.
Proof.
  assert (H : In (TaskApp.Call
                    (CallAddTask (lit "B") (lit "A") false (Some 200000)))
                 (trace (TaskApp.addTask Sample.goodRender))).
  { vm_compute. auto. }
  split; [exact H|].
  exact (proj2 (proj1
    (addTask_sends_bounded_trimmed_values Sample.goodRender _ _ _ _ H))).
Defined.

(** X14. [validateTaskInput] answers true, raising nothing, exactly when
    the title and the text each hold a code unit that is not white space,
    the title has at most 100 code units and the text at most 500;
    otherwise it answers false with one complaint. *)
Theorem validateTaskInput_accepts_exactly (snap : TaskApp.State) :
  let d := TaskApp.newTask snap in
  let ok := Observe.hasInk (TaskApp.title d) /\
            Observe.hasInk (TaskApp.text d) /\
            (List.length (TaskApp.title d) <= 100)%nat /\
            (List.length (TaskApp.text d) <= 500)%nat in
  (ok <-> TaskApp.validateTaskInput snap = ([], Ok true)) /\
  (~ ok <-> exists msg, In msg Observe.validationMessages /\
              TaskApp.validateTaskInput snap
              = ([TaskApp.Toast Error msg], Ok false)).
Proof.
  intros d ok.
  assert (Hok : ok <-> Observe.validDraft d).
  { unfold ok, Observe.validDraft. now rewrite !trim_hasInk. }
  rewrite Hok.
  destruct (validateTaskInput_cases snap)
    as [[Hn (msg & Hm & E)]|[Hv E]]; fold d in Hn || fold d in Hv.
  - split; split.
    + intros Hv. contradiction.
    + rewrite E. discriminate.
    + intros _. now exists msg.
    + intros _. exact Hn.
  - split; split.
    + intros _. exact E.
    + intros _. exact Hv.
    + intros Hn. contradiction.
    + intros (msg & _ & E'). rewrite E in E'. discriminate.
Qed.

(** X15. [validateTaskInput] reports the first check that fails, in the
    order: title empty, text empty, title too long, text too long.  A blank
    title is reported as an empty title even when the text is blank or
    something is too long, and so on down the list. *)
Theorem validateTaskInput_reports_first_failure (snap : TaskApp.State) :
  let d := TaskApp.newTask snap in
  let said := Observe.errorToasts (trace (TaskApp.validateTaskInput snap)) in
  (~ Observe.hasInk (TaskApp.title d) ->
   said = [lit "Task title cannot be empty"]) /\
  (Observe.hasInk (TaskApp.title d) -> ~ Observe.hasInk (TaskApp.text d) ->
   said = [lit "Task description cannot be empty"]) /\
  (Observe.hasInk (TaskApp.title d) -> Observe.hasInk (TaskApp.text d) ->
   (100 < List.length (TaskApp.title d))%nat ->
   said = [lit "Task title too long (max 100 characters)"]) /\
  (Observe.hasInk (TaskApp.title d) -> Observe.hasInk (TaskApp.text d) ->
   (List.length (TaskApp.title d) <= 100)%nat ->
   (500 < List.length (TaskApp.text d))%nat ->
   said = [lit "Task description too long (max 500 characters)"]).
Proof.
  intros d said. subst said d. unfold TaskApp.validateTaskInput.
  rewrite <- !trim_hasInk, <- !nonEmpty_true.
  destruct (nonEmpty (trim (TaskApp.title (TaskApp.newTask snap)))); simpl.
  2:{ repeat split; intros; congruence. }
  destruct (nonEmpty (trim (TaskApp.text (TaskApp.newTask snap)))); simpl.
  2:{ repeat split; intros; congruence. }
  destruct (100 <? List.length (TaskApp.title (TaskApp.newTask snap)))%nat
    eqn:E3.
  { apply Nat.ltb_lt in E3. repeat split; intros; try congruence; lia. }
  apply Nat.ltb_ge in E3.
  destruct (500 <? List.length (TaskApp.text (TaskApp.newTask snap)))%nat
    eqn:E4.
  { repeat split; intros; try congruence; lia. }
  apply Nat.ltb_ge in E4.
  repeat split; intros; try congruence; lia.
Qed.

Example validateTaskInput_blank_title_long_text :
  Observe.errorToasts
    (trace (TaskApp.validateTaskInput
              (Sample.connected Sample.ledger
                 (TaskApp.mkDraft (lit "  ") (repeat 98%N 501)))))
  = [lit "Task title cannot be empty"].
Proof. reflexivity. Qed.

(** ** A confirmed deletion *)

(** X16. When the delete transaction is submitted and confirms with a
    DeleteTask event in its receipt, [deleteTask] announces success once
    and fetches the task list exactly once: if the fetch answers with ids
    of magnitude at most 2^53, the list becomes the tasks not deleted,
    highest id first; if it is rejected, the list stays.  The call carries
    the id it was given. *)
Theorem deleteTask_confirmed_reloads
    (snap s : TaskApp.State) (taskId : Z)
    (c : Contract) (tx : Tx) (receipt : Receipt) :
  truthy (TaskApp.account snap) = true ->
  TaskApp.contract snap = Some c ->
  Ledger.deleteTask c taskId (Some 100000) = Ok tx ->
  wait tx = Ok receipt ->
  Observe.hasEvent "DeleteTask" receipt ->
  let t := trace (TaskApp.deleteTask snap taskId) in
  In (TaskApp.Call (CallDeleteTask taskId (Some 100000))) t /\
  Observe.successToasts t = [lit "Task deleted successfully!"] /\
  Observe.fetches t = 1%nat /\
  (forall allTasks, getMyTask c = Ok allTasks ->
     Observe.safeIds allTasks ->
     Observe.errorToasts t = [] /\
     Observe.liveDescending allTasks (TaskApp.tasks (TaskApp.run s t))) /\
  (forall e, getMyTask c = Throw e ->
     TaskApp.tasks (TaskApp.run s t) = TaskApp.tasks s).
Proof.
  intros Ha Hc Htx Hw He t. subst t.
  destruct (findEvent_some _ _ He) as [ev Hev].
  unfold TaskApp.deleteTask, TaskApp.loadTasks, TaskApp.await.
  rewrite Ha, Hc. simpl. rewrite Htx. simpl. rewrite Hw. simpl.
  rewrite Hev. simpl.
  destruct (getMyTask c) as [l|e0]; simpl;
    (split; [auto|]); (split; [reflexivity|]); (split; [reflexivity|]);
    split.
  - intros allTasks E Hs. inversion E; subst.
    split; [reflexivity|]. exact (sort_liveDescending allTasks Hs).
  - intros e E. discriminate.
  - intros allTasks E. discriminate.
  - intros e E. reflexivity.
Qed.

Lemma deleteTask_confirmed_reloads_witness :
  truthy (TaskApp.account Sample.goodRender) = true /\
  Observe.hasEvent "DeleteTask" Sample.deleteReceipt /\
  Observe.fetches (trace (TaskApp.deleteTask Sample.goodRender 3)) = 1%nat.
Proof.
  assert (He : Observe.hasEvent "DeleteTask" Sample.deleteReceipt).
  { exists [mkEvent (Some (lit "DeleteTask"))],
           (mkEvent (Some (lit "DeleteTask"))).
    repeat split. simpl. auto. }
  split; [reflexivity|]. split; [exact He|].
  exact (proj1 (proj2 (proj2
    (deleteTask_confirmed_reloads Sample.goodRender Sample.goodRender 3
       Sample.ledger (mkTx (Ok Sample.deleteReceipt)) Sample.deleteReceipt
       eq_refl eq_refl eq_refl eq_refl He)))).
Defined.

(** X17. [deleteTask] never removes a task from the page on its own: it
    sets the task list, fetches it or announces success only after the
    delete transaction was submitted and confirmed with a DeleteTask event
    in its receipt.  In every other run the list is untouched. *)
Theorem deleteTask_acts_only_after_confirmation
    (snap : TaskApp.State) (taskId : Z) :
  let t := trace (TaskApp.deleteTask snap taskId) in
  (exists l, In (TaskApp.SetTasks l) t) \/
  Observe.fetches t <> 0%nat \/
  Observe.successToasts t <> [] ->
  exists c tx receipt,
    truthy (TaskApp.account snap) = true /\
    TaskApp.contract snap = Some c /\
    Ledger.deleteTask c taskId (Some 100000) = Ok tx /\
    wait tx = Ok receipt /\
    Observe.hasEvent "DeleteTask" receipt.
Proof.
  intros t H. subst t.
  assert (Hno : forall t',
             TaskApp.deleteTask snap taskId = (t', Ok tt) ->
             (forall l, ~ In (TaskApp.SetTasks l) t') ->
             Observe.fetches t' = 0%nat ->
             Observe.successToasts t' = [] -> False).
  { intros t' E Hd Hf Hs. rewrite E in H. simpl in H.
    destruct H as [[l H]|[H|H]];
      [exact (Hd l H) | exact (H Hf) | exact (H Hs)]. }
  clear H. unfold TaskApp.deleteTask, TaskApp.await in Hno.
  destruct (truthy (TaskApp.account snap)) eqn:Ha; simpl in Hno.
  2:{ exfalso. eapply Hno; [reflexivity| |reflexivity|reflexivity].
      intros x Hx; in_trace Hx. }
  destruct (TaskApp.contract snap) as [c|] eqn:Hc; simpl in Hno.
  2:{ exfalso. eapply Hno; [reflexivity| |reflexivity|reflexivity].
      intros x Hx; in_trace Hx. }
  destruct (Ledger.deleteTask c taskId (Some 100000)) as [tx|e] eqn:Htx;
    simpl in Hno.
  2:{ exfalso. destruct (includes (message e) (lit "owner"));
        (eapply Hno; [reflexivity| |reflexivity|reflexivity]);
        intros x Hx; in_trace Hx. }
  destruct (wait tx) as [receipt|e] eqn:Hw; simpl in Hno.
  2:{ exfalso. destruct (includes (message e) (lit "owner"));
        (eapply Hno; [reflexivity| |reflexivity|reflexivity]);
        intros x Hx; in_trace Hx. }
  destruct (findEvent (eventNamed "DeleteTask") receipt) as [ev|] eqn:Hev;
    simpl in Hno.
  2:{ exfalso. eapply Hno; [reflexivity| |reflexivity|reflexivity].
      intros x Hx; in_trace Hx. }
  clear Hno. exists c, tx, receipt.
  split; [reflexivity|]. split; [reflexivity|]. split; [exact Htx|].
  split; [exact Hw|]. exact (findEvent_hasEvent _ _ _ Hev).
Qed.

Lemma deleteTask_acts_only_after_confirmation_witness :
  Observe.fetches (trace (TaskApp.deleteTask Sample.goodRender 3)) <> 0%nat /\
  exists c tx receipt,
    truthy (TaskApp.account Sample.goodRender) = true /\
    TaskApp.contract Sample.goodRender = Some c /\
    Ledger.deleteTask c 3 (Some 100000) = Ok tx /\
    wait tx = Ok receipt /\
    Observe.hasEvent "DeleteTask" receipt.
Proof.
  assert (H : Observe.fetches (trace (TaskApp.deleteTask Sample.goodRender 3))
              <> 0%nat) by (vm_compute; discriminate).
  split; [exact H|].
  exact (deleteTask_acts_only_after_confirmation Sample.goodRender 3
           (or_intror (or_introl H))).
Defined.

(** X18. When the delete transaction confirms but its receipt lists no
    DeleteTask event, [deleteTask] raises one error toast saying that the
    event was not found, announces no success and does not fetch: the task
    list on the page stays as it was. *)
Theorem deleteTask_confirmed_without_event_is_rejected
    (snap s : TaskApp.State) (taskId : Z)
    (c : Contract) (tx : Tx) (receipt : Receipt) :
  truthy (TaskApp.account snap) = true ->
  TaskApp.contract snap = Some c ->
  Ledger.deleteTask c taskId (Some 100000) = Ok tx ->
  wait tx = Ok receipt ->
  ~ Observe.hasEvent "DeleteTask" receipt ->
  let t := trace (TaskApp.deleteTask snap taskId) in
  Observe.errorToasts t = [lit "Delete task event not found in transaction"] /\
  Observe.successToasts t = [] /\
  Observe.fetches t = 0%nat /\
  TaskApp.tasks (TaskApp.run s t) = TaskApp.tasks s.
Proof.
  intros Ha Hc Htx Hw He t. subst t.
  apply findEvent_none in He.
  unfold TaskApp.deleteTask, TaskApp.await.
  rewrite Ha, Hc. simpl. rewrite Htx. simpl. rewrite Hw. simpl.
  rewrite He. simpl. repeat split.
Qed.

Lemma deleteTask_confirmed_without_event_is_rejected_witness :
  truthy (TaskApp.account
            (Sample.connected
               (mkContract (Ok []) (fun _ _ _ _ => Throw Sample.gasError)
                           (fun _ _ => Ok (mkTx (Ok Sample.silentReceipt))))
               Sample.emptyDraft)) = true /\
  Observe.fetches
    (trace (TaskApp.deleteTask
              (Sample.connected
                 (mkContract (Ok []) (fun _ _ _ _ => Throw Sample.gasError)
                             (fun _ _ => Ok (mkTx (Ok Sample.silentReceipt))))
                 Sample.emptyDraft) 3))
  = 0%nat.
Proof.
  split; [reflexivity|].
  refine (proj1 (proj2 (proj2
    (deleteTask_confirmed_without_event_is_rejected
       (Sample.connected
          (mkContract (Ok []) (fun _ _ _ _ => Throw Sample.gasError)
                      (fun _ _ => Ok (mkTx (Ok Sample.silentReceipt))))
          Sample.emptyDraft)
       TaskApp.initial 3 _ (mkTx (Ok Sample.silentReceipt))
       Sample.silentReceipt eq_refl eq_refl eq_refl eq_refl _)))).
  intros (evs & e & E & Hin & He). injection E as <-.
  destruct Hin as [<-|[]]. discriminate He.
Defined.

(** ** Renders that lack the account or the contract handle *)

(** X19. From a render without account the three handlers that need one do
    nothing to the state and make no call: [addTask] and [deleteTask] ask
    to connect the wallet, [loadTasks] only warns on the console. *)
Theorem handlers_do_nothing_without_account
    (snap s : TaskApp.State) (taskId : Z) (taskContract : option Contract) :
  truthy (TaskApp.account snap) = false ->
  let ta := trace (TaskApp.addTask snap) in
  let td := trace (TaskApp.deleteTask snap taskId) in
  let tl := trace (TaskApp.loadTasks snap taskContract) in
  (Observe.noNetwork ta /\ Observe.noNetwork td /\ Observe.noNetwork tl) /\
  (TaskApp.run s ta = s /\ TaskApp.run s td = s /\ TaskApp.run s tl = s) /\
  Observe.errorToasts ta = [Observe.notConnectedMessage] /\
  Observe.errorToasts td = [Observe.notConnectedMessage] /\
  Observe.errorToasts tl = [].
Proof.
  intros Ha ta td tl. subst ta td tl.
  rewrite (addTask_disconnected snap Ha), (loadTasks_no_account snap _ Ha).
  unfold TaskApp.deleteTask. rewrite Ha. simpl.
  repeat split; intros c H; in_trace H.
Qed.

Lemma handlers_do_nothing_without_account_witness :
  truthy (TaskApp.account TaskApp.initial) = false /\
  Observe.errorToasts (trace (TaskApp.deleteTask TaskApp.initial 3))
  = [Observe.notConnectedMessage].
Proof.
  split; [reflexivity|].
  exact (proj1 (proj2 (proj2 (proj2
    (handlers_do_nothing_without_account TaskApp.initial TaskApp.initial
       3 None eq_refl))))).
Defined.

(** X20. From a render that has an account but no contract handle, a valid
    [addTask] and any [deleteTask] fail inside the handler: one error
    toast, no call, and task list and draft as they were. *)
Theorem mutations_without_contract_fail_locally
    (snap s : TaskApp.State) (taskId : Z) :
  truthy (TaskApp.account snap) = true ->
  Observe.validDraft (TaskApp.newTask snap) ->
  TaskApp.contract snap = None ->
  let ta := trace (TaskApp.addTask snap) in
  let td := trace (TaskApp.deleteTask snap taskId) in
  (Observe.noNetwork ta /\ Observe.noNetwork td) /\
  (exists msg, Observe.errorToasts ta = [msg]) /\
  (exists msg, Observe.errorToasts td = [msg]) /\
  TaskApp.run s ta = Observe.withLoading false s /\
  TaskApp.run s td = Observe.withLoading false s.
Proof.
  intros Ha Hv Hc ta td. subst ta td.
  unfold TaskApp.addTask, TaskApp.deleteTask. rewrite Ha, Hc. simpl.
  destruct (validateTaskInput_cases snap) as [[Hn _]|[_ ->]];
    [contradiction|]. simpl.
  split; [split; intros c H; in_trace H|].
  split; [eexists; reflexivity|].
  split; [eexists; reflexivity|].
  split; reflexivity.
Qed.

Lemma mutations_without_contract_fail_locally_witness :
  truthy (TaskApp.account Sample.orphanRender) = true /\
  TaskApp.contract Sample.orphanRender = None /\
  Observe.noNetwork (trace (TaskApp.addTask Sample.orphanRender)).
Proof.
  split; [reflexivity|]. split; [reflexivity|].
  refine (proj1 (proj1
    (mutations_without_contract_fail_locally Sample.orphanRender
       Sample.orphanRender 3 eq_refl _ eq_refl))).
  unfold Observe.validDraft. repeat split; simpl; try discriminate; lia.
Defined.

(** ** The loaded list *)
Section Loaded.
Import TaskApp.

(** Dropping the deleted tasks keeps the ids apart. *)
Lemma live_ids_unique (l : list Task) :
  NoDup (map id l) -> NoDup (map id (filter notDeleted l)).
Proof.
  induction l as [|x l IH]; intros Hids; [constructor|].
  cbn [map] in Hids. apply NoDup_cons_iff in Hids as [Hfresh Hrest].
  cbn [filter]. destruct (notDeleted x); [|exact (IH Hrest)].
  cbn [map]. apply NoDup_cons; [|exact (IH Hrest)].
  contradict Hfresh.
  apply in_map_iff in Hfresh as (y & Ey & Hy).
  apply in_map_iff. exists y. split; [exact Ey|].
  now apply filter_In in Hy.
Qed.

Lemma sorted_strict (l : list Task) :
  StronglySorted (fun a b => id b <= id a) l ->
  NoDup (map id l) ->
  StronglySorted (fun a b => id b < id a) l.
Proof.
  induction 1 as [|a l Hl IH Ha]; intros Hn; [constructor|].
  simpl in Hn. inversion Hn as [|? ? Hx Hnl]; subst.
  constructor; [auto|].
  rewrite Forall_forall in *. intros b Hb.
  specialize (Ha b Hb).
  assert (id b <> id a).
  { intros E. apply Hx. rewrite <- E. now apply in_map. }
  lia.
Qed.

Lemma filter_all {A} (p : A -> bool) (l : list A) :
  (forall x, In x l -> p x = true) -> filter p l = l.
Proof.
  induction l as [|x l IH]; simpl; intros H; [reflexivity|].
  rewrite (H x (or_introl eq_refl)), IH; auto.
Qed.

End Loaded.

(** X21. When the ids of the answer are pairwise different and of
    magnitude at most 2^53, the list [loadTasks] stores is in strictly
    descending id order and no id occurs in it twice, so the keys of the
    task cards are unique. *)
Theorem loadTasks_ids_strictly_descending
    (snap s : TaskApp.State) (c : Contract) (allTasks : list Task) :
  truthy (TaskApp.account snap) = true ->
  getMyTask c = Ok allTasks ->
  NoDup (map id allTasks) ->
  Observe.safeIds allTasks ->
  let local :=
    TaskApp.tasks (TaskApp.run s (trace (TaskApp.loadTasks snap (Some c)))) in
  StronglySorted (fun a b => id b < id a) local /\
  NoDup (map id local).
Proof.
  intros Ha Hg Hn Hs local.
  assert (E : local = JS.sort byIdDesc (filter notDeleted allTasks)).
  { subst local. rewrite (loadTasks_fetched snap c allTasks Ha Hg).
    reflexivity. }
  rewrite E. clear E local.
  assert (Hnd : NoDup (map id (JS.sort byIdDesc (filter notDeleted allTasks)))).
  { eapply Permutation_NoDup.
    - apply Permutation_map, Permutation_sym, sort_perm.
    - now apply live_ids_unique. }
  split; [|exact Hnd].
  apply sorted_strict; [|exact Hnd].
  apply (sort_liveDescending allTasks Hs).
Qed.

Lemma loadTasks_ids_strictly_descending_witness :
  truthy (TaskApp.account Sample.goodRender) = true /\
  NoDup (map id [Sample.task1; Sample.task2; Sample.task3]) /\
  NoDup (map id
           (TaskApp.tasks
              (TaskApp.run Sample.goodRender
                 (trace (TaskApp.loadTasks Sample.goodRender
                           (Some Sample.ledger)))))).
Proof.
  assert (H : NoDup (map id [Sample.task1; Sample.task2; Sample.task3])).
  { simpl. repeat constructor; simpl; intuition discriminate. }
  assert (Hs : Observe.safeIds [Sample.task1; Sample.task2; Sample.task3]).
  { intros t [<-|[<-|[<-|[]]]]; vm_compute; discriminate. }
  split; [reflexivity|]. split; [exact H|].
  exact (proj2 (loadTasks_ids_strictly_descending
                  Sample.goodRender Sample.goodRender Sample.ledger _
                  eq_refl eq_refl H Hs)).
Defined.

(** X22. The list [loadTasks] stores is never longer than the answer, and
    filtering and sorting it again changes nothing: what is on the page is
    already free of deleted tasks and in the order of the comparator. *)
Theorem loadTasks_result_is_a_fixed_point
    (snap s : TaskApp.State) (c : Contract) (allTasks : list Task) :
  truthy (TaskApp.account snap) = true ->
  getMyTask c = Ok allTasks ->
  let local :=
    TaskApp.tasks (TaskApp.run s (trace (TaskApp.loadTasks snap (Some c)))) in
  JS.sort byIdDesc (filter notDeleted local) = local /\
  (List.length local <= List.length allTasks)%nat.
Proof.
  intros Ha Hg local.
  assert (E : local = JS.sort byIdDesc (filter notDeleted allTasks)).
  { subst local. rewrite (loadTasks_fetched snap c allTasks Ha Hg).
    reflexivity. }
  rewrite E. clear E local.
  pose proof (sort_perm byIdDesc (filter notDeleted allTasks)) as P.
  split.
  - rewrite filter_all.
    + apply sort_fixes_sorted, sort_sorted;
        [apply byIdDesc_antisym | apply byIdDesc_trans].
    + intros x Hx. apply (Permutation_in _ P), filter_In in Hx. tauto.
  - rewrite (Permutation_length P). apply filter_length_le.
Qed.

Lemma loadTasks_result_is_a_fixed_point_witness :
  truthy (TaskApp.account Sample.goodRender) = true /\
  getMyTask Sample.ledger = Ok [Sample.task1; Sample.task2; Sample.task3] /\
  (List.length
     (TaskApp.tasks
        (TaskApp.run Sample.goodRender
           (trace (TaskApp.loadTasks Sample.goodRender (Some Sample.ledger)))))
   <= 3)%nat.
Proof.
  split; [reflexivity|]. split; [reflexivity|].
  exact (proj2 (loadTasks_result_is_a_fixed_point
                  Sample.goodRender Sample.goodRender Sample.ledger _
                  eq_refl eq_refl)).
Defined.

(** ** What the page shows *)

(** X23. After a load that answered with ids of magnitude at most 2^53,
    a page with an account shows the loaded list: the line "No tasks
    found" when no task of the answer is live, otherwise one card per live
    task, highest id first, each with an enabled Delete button that passes
    the id of its task. *)
Theorem page_shows_loaded_tasks
    (snap s : TaskApp.State) (c : Contract) (allTasks : list Task) :
  truthy (TaskApp.account snap) = true ->
  truthy (TaskApp.account s) = true ->
  getMyTask c = Ok allTasks ->
  Observe.safeIds allTasks ->
  let s' := TaskApp.run s (trace (TaskApp.loadTasks snap (Some c))) in
  let live := TaskApp.tasks s' in
  Observe.liveDescending allTasks live /\
  (live = [] -> TaskApp.listView s' = TaskApp.NoTasksLine) /\
  (live <> [] ->
   TaskApp.listView s'
   = TaskApp.Cards (map (fun task => (id task, false)) live)).
Proof.
  intros Ha Hacc Hg Hs s' live. subst live s'.
  rewrite (loadTasks_fetched snap c allTasks Ha Hg).
  split; [exact (sort_liveDescending allTasks Hs)|].
  unfold TaskApp.listView. simpl. rewrite Hacc. simpl.
  destruct (JS.sort byIdDesc (filter notDeleted allTasks)) as [|x l];
    split; intros H; try reflexivity; congruence.
Qed.

Lemma page_shows_loaded_tasks_witness :
  truthy (TaskApp.account Sample.goodRender) = true /\
  getMyTask Sample.ledger = Ok [Sample.task1; Sample.task2; Sample.task3] /\
  Observe.safeIds [Sample.task1; Sample.task2; Sample.task3] /\
  TaskApp.listView
    (TaskApp.run Sample.goodRender
       (trace (TaskApp.loadTasks Sample.goodRender (Some Sample.ledger))))
  = TaskApp.Cards [(3, false); (1, false)].
Proof.
  assert (Hs : Observe.safeIds [Sample.task1; Sample.task2; Sample.task3]).
  { intros t [<-|[<-|[<-|[]]]]; vm_compute; discriminate. }
  split; [reflexivity|]. split; [reflexivity|]. split; [exact Hs|].
  refine (proj2 (proj2 (page_shows_loaded_tasks
                   Sample.goodRender Sample.goodRender Sample.ledger _
                   eq_refl eq_refl eq_refl Hs)) _).
  discriminate.
Defined.

(** X24. For an account of at least ten code units, such as an address,
    the header shows thirteen: its first six, three dots, its last four;
    the two pieces shown are the two ends of the account and do not
    overlap. *)
Theorem header_shortens_account (s : TaskApp.State) (a : jsstring) :
  TaskApp.account s = Some a ->
  (10 <= List.length a)%nat ->
  TaskApp.headerView s = TaskApp.AccountBadge (TaskApp.shortAccount a) /\
  List.length (TaskApp.shortAccount a) = 13%nat /\
  exists middle,
    a = sliceTo 6 a ++ middle ++ sliceLast 4 a /\
    TaskApp.shortAccount a = sliceTo 6 a ++ lit "..." ++ sliceLast 4 a.
Proof.
  intros Ha Hl. split; [|split].
  - unfold TaskApp.headerView. rewrite Ha.
    destruct a; [simpl in Hl; lia | reflexivity].
  - unfold TaskApp.shortAccount, sliceTo, sliceLast.
    rewrite !length_app, length_firstn, length_skipn.
    change (List.length (lit "...")) with 3%nat. lia.
  - exists (firstn (List.length a - 10) (skipn 6 a)). split; [|reflexivity].
    unfold sliceTo, sliceLast.
    assert (E : skipn (List.length a - 4) a
                = skipn (List.length a - 10) (skipn 6 a)).
    { rewrite skipn_skipn. f_equal. lia. }
    rewrite E, firstn_skipn, firstn_skipn. reflexivity.
Qed.

Lemma header_shortens_account_witness :
  TaskApp.account
    (TaskApp.mkState (Some contractAddress) None [] (TaskApp.mkDraft [] [])
                     false true) = Some contractAddress /\
  (10 <= List.length contractAddress)%nat /\
  List.length (TaskApp.shortAccount contractAddress) = 13%nat.
Proof.
  assert (H : (10 <= List.length contractAddress)%nat) by (vm_compute; lia).
  split; [reflexivity|]. split; [exact H|].
  exact (proj1 (proj2
    (header_shortens_account
       (TaskApp.mkState (Some contractAddress) None [] (TaskApp.mkDraft [] [])
                        false true) contractAddress eq_refl H))).
Defined.

Example header_sample :
  TaskApp.shortAccount contractAddress = lit "0x1728...d7B3".
Proof. reflexivity. Qed.

(** ** The plain component *)

(** X25. When the fetch of [fetchTasks] is rejected, the plain component
    keeps its task list, account and contract handle, stores the message
    of the error behind "Failed to fetch tasks: " as its error text, and
    ends with loading clear. *)
Theorem fetchTasks_failure_keeps_list
    (snap s : App.State) (c : Contract) (e : JsError) :
  App.contract snap = Some c ->
  getMyTask c = Throw e ->
  let s' := App.run s (trace (App.fetchTasks snap)) in
  App.tasks s' = App.tasks s /\
  App.error s' = lit "Failed to fetch tasks: " ++ message e /\
  App.loading s' = false /\
  App.account s' = App.account s /\
  App.contract s' = App.contract s.
Proof.
  intros Hc Hg s'. subst s'.
  unfold App.fetchTasks, App.await. rewrite Hc, Hg. simpl. repeat split.
Qed.

Lemma fetchTasks_failure_keeps_list_witness :
  App.contract
    (App.mkState (Some (Sample.failingLedger Sample.gasError)) None
                 [Sample.task1] false [] (App.mkDraft [] []))
  = Some (Sample.failingLedger Sample.gasError) /\
  App.tasks
    (App.run
       (App.mkState (Some (Sample.failingLedger Sample.gasError)) None
                    [Sample.task1] false [] (App.mkDraft [] []))
       (trace (App.fetchTasks
                 (App.mkState (Some (Sample.failingLedger Sample.gasError))
                              None [Sample.task1] false []
                              (App.mkDraft [] [])))))
  = [Sample.task1].
Proof.
  split; [reflexivity|].
  exact (proj1 (fetchTasks_failure_keeps_list
                  (App.mkState (Some (Sample.failingLedger Sample.gasError))
                               None [Sample.task1] false []
                               (App.mkDraft [] []))
                  (App.mkState (Some (Sample.failingLedger Sample.gasError))
                               None [Sample.task1] false []
                               (App.mkDraft [] []))
                  (Sample.failingLedger Sample.gasError) Sample.gasError
                  eq_refl eq_refl)).
Defined.

(** X26. [handleAddTask] of the plain component checks nothing: with a
    contract handle set, its first call submits the text and the title of
    the draft exactly as typed, empty or blank ones included, with no gas
    override.  When that transaction confirms it empties the draft
    whatever the receipt lists, and fetches the list, which becomes the
    tasks not deleted in the order of the answer. *)
Theorem handleAddTask_submits_draft_as_typed
    (snap s : App.State) (c : Contract) :
  App.contract snap = Some c ->
  let d := App.newTask snap in
  let t := trace (App.handleAddTask snap) in
  hd_error (Observe.effectCalls t)
  = Some (CallAddTask (App.text d) (App.title d) false None) /\
  (forall tx receipt,
     Ledger.addTask c (App.text d) (App.title d) false None = Ok tx ->
     wait tx = Ok receipt ->
     App.newTask (App.runEffects s t) = App.mkDraft [] [] /\
     forall taskList, getMyTask c = Ok taskList ->
       App.tasks (App.runEffects s t) = filter notDeleted taskList).
Proof.
  intros Hc d t. subst t d.
  unfold App.handleAddTask, App.fetchTasks, App.lift, App.await.
  rewrite Hc. simpl.
  destruct (Ledger.addTask c _ _ false None) as [tx|e]; simpl;
    [|split; [reflexivity | intros tx' r E; discriminate]].
  destruct (wait tx) as [receipt|e] eqn:Hw; simpl.
  2:{ split; [reflexivity|]. intros tx' r E Hw'. inversion E; subst.
      congruence. }
  destruct (getMyTask c) as [l|e]; simpl.
  - split; [reflexivity|]. intros _ _ _ _. split; [reflexivity|].
    intros taskList E. inversion E; subst. reflexivity.
  - split; [reflexivity|]. intros _ _ _ _. split; [reflexivity|].
    discriminate.
Qed.

Lemma handleAddTask_submits_draft_as_typed_witness :
  App.contract Sample.appRender = Some Sample.ledger /\
  hd_error (Observe.effectCalls (trace (App.handleAddTask Sample.appRender)))
  = Some (CallAddTask [] [] false None).
Proof.
  split; [reflexivity|].
  exact (proj1 (handleAddTask_submits_draft_as_typed
                  Sample.appRender Sample.appRender Sample.ledger eq_refl)).
Defined.

(** X27. When the add transaction of the plain component is rejected, on
    submission or while waiting, [handleAddTask] keeps the draft and the
    task list, stores the message of the error behind "Failed to add
    task: " as its error text, does not fetch, and ends with loading
    clear. *)
Theorem handleAddTask_rejection_keeps_draft
    (snap s : App.State) (c : Contract) (e : JsError) :
  App.contract snap = Some c ->
  let d := App.newTask snap in
  Ledger.addTask c (App.text d) (App.title d) false None = Throw e \/
  (exists tx, Ledger.addTask c (App.text d) (App.title d) false None = Ok tx /\
              wait tx = Throw e) ->
  let t := trace (App.handleAddTask snap) in
  App.newTask (App.runEffects s t) = App.newTask s /\
  App.tasks (App.runEffects s t) = App.tasks s /\
  App.error (App.runEffects s t) = lit "Failed to add task: " ++ message e /\
  App.loading (App.runEffects s t) = false /\
  ~ In CallGetMyTask (Observe.effectCalls t).
Proof.
  intros Hc d Hrej t. subst t d.
  unfold App.handleAddTask, App.lift, App.await. rewrite Hc. simpl.
  destruct Hrej as [Hr|(tx & Hr & Hw)]; rewrite Hr; simpl.
  - repeat split. intros H. in_trace H.
  - rewrite Hw. simpl. repeat split. intros H. in_trace H.
Qed.

Lemma handleAddTask_rejection_keeps_draft_witness :
  App.contract
    (App.mkState (Some (Sample.failingLedger Sample.gasError)) None
                 [Sample.task1] false [] (App.mkDraft (lit "A") (lit "B")))
  = Some (Sample.failingLedger Sample.gasError) /\
  App.newTask
    (App.runEffects
       (App.mkState (Some (Sample.failingLedger Sample.gasError)) None
                    [Sample.task1] false [] (App.mkDraft (lit "A") (lit "B")))
       (trace (App.handleAddTask
                 (App.mkState (Some (Sample.failingLedger Sample.gasError))
                              None [Sample.task1] false []
                              (App.mkDraft (lit "A") (lit "B"))))))
  = App.mkDraft (lit "A") (lit "B").
Proof.
  split; [reflexivity|].
  exact (proj1 (handleAddTask_rejection_keeps_draft
                  (App.mkState (Some (Sample.failingLedger Sample.gasError))
                               None [Sample.task1] false []
                               (App.mkDraft (lit "A") (lit "B")))
                  (App.mkState (Some (Sample.failingLedger Sample.gasError))
                               None [Sample.task1] false []
                               (App.mkDraft (lit "A") (lit "B")))
                  (Sample.failingLedger Sample.gasError) Sample.gasError
                  eq_refl (or_introl eq_refl))).
Defined.

(** X28. [handleDeleteTask] of the plain component: when the delete
    transaction confirms, the list is fetched and becomes the tasks not
    deleted in the order of the answer, whatever the receipt lists; when
    the transaction is rejected, on submission or while waiting, the list
    stays, nothing is fetched and the error text is the message behind
    "Failed to delete task: ".  Without a contract handle it does
    nothing. *)
Theorem handleDeleteTask_reloads_or_reports
    (snap s : App.State) (taskId : Z) :
  let t := trace (App.handleDeleteTask snap taskId) in
  (App.contract snap = None -> t = []) /\
  (forall c tx receipt taskList,
     App.contract snap = Some c ->
     Ledger.deleteTask c taskId None = Ok tx ->
     wait tx = Ok receipt ->
     getMyTask c = Ok taskList ->
     App.tasks (App.run s t) = filter notDeleted taskList /\
     App.error (App.run s t) = App.error s) /\
  (forall c e,
     App.contract snap = Some c ->
     Ledger.deleteTask c taskId None = Throw e \/
     (exists tx, Ledger.deleteTask c taskId None = Ok tx /\
                 wait tx = Throw e) ->
     App.tasks (App.run s t) = App.tasks s /\
     App.error (App.run s t) = lit "Failed to delete task: " ++ message e /\
     ~ In CallGetMyTask (Observe.appCalls t)).
Proof.
  intros t. subst t. unfold App.handleDeleteTask, App.fetchTasks, App.await.
  split; [|split].
  - intros ->. reflexivity.
  - intros c tx receipt taskList Hc Htx Hw Hg.
    rewrite Hc. simpl. rewrite Htx. simpl. rewrite Hw. simpl.
    rewrite Hg. split; reflexivity.
  - intros c e Hc [Hr|(tx & Hr & Hw)]; rewrite Hc; simpl; rewrite Hr; simpl.
    + repeat split. intros H. in_trace H.
    + rewrite Hw. repeat split. intros H. in_trace H.
Qed.

Lemma handleDeleteTask_reloads_or_reports_witness :
  App.contract Sample.appRender = Some Sample.ledger /\
  getMyTask Sample.ledger = Ok [Sample.task1; Sample.task2; Sample.task3] /\
  App.tasks
    (App.run Sample.appRender
       (trace (App.handleDeleteTask Sample.appRender 2)))
  = [Sample.task1; Sample.task3].
Proof.
  split; [reflexivity|]. split; [reflexivity|].
  exact (proj1 (proj1 (proj2
    (handleDeleteTask_reloads_or_reports Sample.appRender Sample.appRender 2))
    Sample.ledger (mkTx (Ok Sample.deleteReceipt)) Sample.deleteReceipt
    _ eq_refl eq_refl eq_refl eq_refl)).
Defined.

(** X29. [initializeWeb3] stores the account as soon as the wallet hands
    it out, before it asks the provider for a signer.  When the signer is
    then refused, the plain component is left with the account set and no
    new contract handle, the message of the error as its error text, and
    no listener for account changes.  When the signer is granted, account
    and contract handle are set and the listener is registered. *)
Theorem initializeWeb3_sets_account_before_contract
    (s : App.State) (eth : Ethereum) (accounts : list jsstring)
    (signer : Res unit) :
  requestAccounts eth = Ok accounts ->
  let t := trace (App.initializeWeb3 (Some eth) signer) in
  let s' := App.runEffects s t in
  App.account s' = first accounts /\
  (exists rest,
     t = [App.Do (App.Call CallRequestAccounts);
          App.Do (App.SetAccount (first accounts));
          App.CallGetSigner] ++ rest) /\
  (forall e, signer = Throw e ->
     App.contract s' = App.contract s /\
     App.error s' = message e /\
     ~ In App.ListenAccountsChanged t) /\
  (signer = Ok tt ->
     App.contract s' = Some (newContract eth contractAddress) /\
     App.error s' = App.error s /\
     In App.ListenAccountsChanged t).
Proof.
  intros Hr t s'. subst s' t.
  unfold App.initializeWeb3, App.lift, App.await. rewrite Hr. simpl.
  destruct signer as [[]|e0]; simpl.
  - split; [reflexivity|]. split; [eexists; reflexivity|]. split.
    + intros e E. discriminate.
    + intros _. repeat split. auto 10.
  - split; [reflexivity|]. split; [eexists; reflexivity|]. split.
    + intros e E. inversion E; subst. repeat split. intros H. in_trace H.
    + intros E. discriminate.
Qed.

Lemma initializeWeb3_sets_account_before_contract_witness :
  requestAccounts Sample.goerli = Ok [lit "0xAAA"] /\
  App.account
    (App.runEffects Sample.appRender
       (trace (App.initializeWeb3 (Some Sample.goerli)
                 (Throw Sample.gasError))))
  = Some (lit "0xAAA").
Proof.
  split; [reflexivity|].
  exact (proj1 (initializeWeb3_sets_account_before_contract
                  Sample.appRender Sample.goerli [lit "0xAAA"]
                  (Throw Sample.gasError) eq_refl)).
Defined.

(** X30. When the wallet is missing or turns the account request down,
    [initializeWeb3] stores the message of the error as the error text and
    nothing else: no account, no contract handle, no listener. *)
Theorem initializeWeb3_failure_sets_only_error
    (s : App.State) (ethereum : option Ethereum) (signer : Res unit)
    (e : JsError) :
  (ethereum = None /\ e = newError "Please install MetaMask") \/
  (exists eth, ethereum = Some eth /\ requestAccounts eth = Throw e) ->
  let t := trace (App.initializeWeb3 ethereum signer) in
  let s' := App.runEffects s t in
  App.error s' = message e /\
  App.account s' = App.account s /\
  App.contract s' = App.contract s /\
  App.tasks s' = App.tasks s /\
  ~ In App.ListenAccountsChanged t.
Proof.
  intros H t s'. subst s' t.
  unfold App.initializeWeb3, App.lift, App.await.
  destruct H as [[-> ->]|(eth & -> & Hr)]; [|rewrite Hr]; simpl;
    repeat split; intros H; in_trace H.
Qed.

Lemma initializeWeb3_failure_sets_only_error_witness :
  requestAccounts Sample.refusing
  = Throw (mkError (lit "User rejected the request.") None) /\
  App.error
    (App.runEffects Sample.appRender
       (trace (App.initializeWeb3 (Some Sample.refusing) (Ok tt))))
  = lit "User rejected the request.".
Proof.
  split; [reflexivity|].
  exact (proj1 (initializeWeb3_failure_sets_only_error
                  Sample.appRender (Some Sample.refusing) (Ok tt)
                  (mkError (lit "User rejected the request.") None)
                  (or_intror (ex_intro _ Sample.refusing
                                (conj eq_refl eq_refl))))).
Defined.
